(** * Driver fatigue prediction: scoring formula, train/predict pipeline,
      risk bands and the session record table.

    Shallow embedding of [model.py], [utils.py] and the "Add Driver" form
    handler of [streamlit_app.py].

    Modelling conventions.
    - Python numbers ([int] and [float] alike) are exact rationals [Q];
      binary64 rounding is not modelled.  Results are therefore compared
      with [Qeq] ([==]).
    - A row ([dict] or pandas [Series]) is a finite map from column names
      to values, [gmap string value].
    - Python code runs in a state-and-exception monad [Py S]: a computation
      receives the program state, returns either an exception or a value,
      and the state it leaves behind.
    - scikit-learn estimators are external: the fitted scaler and classifier
      are records of functions, [LabelEncoder] is modelled by its documented
      behaviour (sorted distinct classes, [transform] by position,
      [ValueError] on an unseen label). *)

From Stdlib Require Import QArith Qminmax Lqa String.
From stdpp Require Import gmap strings list fin_maps.

Open Scope Q_scope.
Open Scope string_scope.

(** ** Python values, exceptions and the [Py] monad *)

Inductive value : Type :=
  | VNum (q : Q)
  | VStr (s : string).

Inductive exn : Type :=
  | KeyError (key : string)
  | TypeError
  | ValueError.

(** Outcome of a call: a returned value or a raised exception. *)
Inductive result (A : Type) : Type :=
  | Ret (a : A)
  | Exc (e : exn).
Arguments Ret {A} a.
Arguments Exc {A} e.

#[export] Instance result_ret : MRet result := λ A x, Ret x.

#[export] Instance result_bind : MBind result :=
  λ A B f r, match r with Ret x => f x | Exc e => Exc e end.

Definition Py (S A : Type) : Type := S → result A * S.

#[export] Instance Py_ret {S} : MRet (Py S) :=
  λ A x s, (Ret x, s).

#[export] Instance Py_bind {S} : MBind (Py S) :=
  λ A B f m s,
    match m s with
    | (Ret x, s') => f x s'
    | (Exc e, s') => (Exc e, s')
    end.

Definition raise {S A} (e : exn) : Py S A := λ s, (Exc e, s).

(** A call that cannot touch the state (a library function on values). *)
Definition lift_result {S A} (r : result A) : Py S A := λ s, (r, s).

(** The row a function was handed, as seen from the program state. *)
Class HasRow (S : Type) := row_of : S → gmap string value.

#[export] Instance dict_HasRow : HasRow (gmap string value) := λ d, d.
#[export] Instance pair_HasRow {W} : HasRow (gmap string value * W) := fst.

(** [row[key]]: a read; a missing key raises [KeyError]. *)
Definition getitem {S} `{HasRow S} (key : string) : Py S value :=
  λ s, match row_of s !! key with
       | Some v => (Ret v, s)
       | None => (Exc (KeyError key), s)
       end.

(** Arithmetic and ordering against a number raise [TypeError] on a string. *)
Definition as_num {S} (v : value) : Py S Q :=
  match v with
  | VNum q => mret q
  | VStr _ => raise TypeError
  end.

Definition getnum {S} `{HasRow S} (key : string) : Py S Q :=
  getitem key ≫= as_num.

(** Python's [a > b] and [a >= b] on numbers. *)
Definition py_gt (a b : Q) : bool := negb (Qle_bool a b).
Definition py_ge (a b : Q) : bool := Qle_bool b a.
Definition py_lt (a b : Q) : bool := negb (Qle_bool b a).

(** Python's builtin [max(a, b)]: keeps [a] unless [b > a]. *)
Definition py_max (a b : Q) : Q := if py_gt b a then b else a.

(** Python's [v == 'literal']: [False] when [v] is not that string. *)
Definition py_eq_str (v : value) (lit : string) : bool :=
  match v with
  | VStr s => String.eqb s lit
  | VNum _ => false
  end.

(** ** model.py: the fatigue scoring formula *)

Definition weighted_fatigue_score {S} `{HasRow S} : Py S Q :=
  let score := 0 in
  sleep ← getnum "Sleep_Hours";
  let score := score + py_max 0 (8 - sleep) * 1.5 in
  driving ← getnum "Driving_Hours";
  let score := score + py_max 0 (driving - 6) * 1.2 in
  caffeine ← getnum "Caffeine_Cups";
  let score := score + (if py_ge caffeine 2 then 0 else 1.0) in
  rest ← getnum "Rest_Breaks";
  let score := score + py_max 0 (20 - rest) * 0.1 in
  stress ← getnum "Stress_Level";
  term ← (if py_gt stress 5
          then stress' ← getnum "Stress_Level"; mret ((stress' - 5) * 0.5)
          else mret 0);
  let score := score + term in
  tod ← getitem "Time_of_Day";
  let score := if py_eq_str tod "Night" then score + 1.0 else score in
  mret score.

(** ** utils.py: risk colour, level and action message *)

Definition get_risk_color (score : Q) : string :=
  if py_lt score 3 then "#10b981"
  else if py_lt score 5 then "#f59e0b"
  else "#ef4444".

Definition get_risk_level (score : Q) : string :=
  if py_lt score 3 then "Low Risk"
  else if py_lt score 5 then "Moderate Risk"
  else "High Risk".

Definition SAFE_MESSAGE : string :=
  "✅ SAFE: Driver can continue driving. Maintain standard vigilance. " ++
  "Encourage brief breaks every 2–3 hours.".

Definition CAUTION_MESSAGE : string :=
  "⚠️ CAUTION: Moderate risk — recommend a SHORT rest (15–30 min) and reassess. " ++
  "Avoid long or monotonous driving until score improves.".

Definition DANGER_MESSAGE : string :=
  "🚫 DANGER: High risk — DO NOT DRIVE. Take a sustained rest (1–2 hours) " ++
  "or seek replacement before resuming.".

Definition get_action_message (score : Q) : string :=
  if py_lt score 3 then SAFE_MESSAGE
  else if py_lt score 5 then CAUTION_MESSAGE
  else DANGER_MESSAGE.

(** ** scikit-learn: the estimators used by model.py *)

(** [LabelEncoder]: [classes_] holds the distinct labels seen by [fit],
    sorted; [transform] maps a label to its position and raises
    [ValueError] on a label that was not seen. *)
Record LabelEncoder : Type := { classes_ : list string }.

Fixpoint insert_sorted (s : string) (l : list string) : list string :=
  match l with
  | [] => [s]
  | x :: l' =>
      match String.compare s x with
      | Lt => s :: l
      | Eq => l
      | Gt => x :: insert_sorted s l'
      end
  end.

Definition sorted_unique (y : list string) : list string :=
  foldr insert_sorted [] y.

Definition le_fit (y : list string) : LabelEncoder :=
  {| classes_ := sorted_unique y |}.

Fixpoint index_of (s : string) (l : list string) : option nat :=
  match l with
  | [] => None
  | x :: l' => if String.eqb x s then Some 0%nat
               else S <$> index_of s l'
  end.

Definition le_transform (le : LabelEncoder) (v : value) : result Q :=
  match v with
  | VStr s =>
      match index_of s (classes_ le) with
      | Some i => Ret (inject_Z (Z.of_nat i))
      | None => Exc ValueError
      end
  | VNum _ => Exc ValueError
  end.

(** A fitted [StandardScaler] and a fitted classifier, as the functions
    model.py calls on them (one feature row at a time). *)
Record Scaler : Type := { scaler_transform : list Q → list Q }.

Record Classifier : Type := {
  predict : list Q → string;
  predict_proba : list Q → list Q
}.

(** Conversion of a feature row to a float array: [ValueError] on a string
    (numeric-looking strings, which numpy would parse, are not modelled). *)
Fixpoint to_float_array (xs : list value) : result (list Q) :=
  match xs with
  | [] => Ret []
  | VNum q :: xs' => qs ← to_float_array xs'; mret (q :: qs)
  | VStr _ :: _ => Exc ValueError
  end.

(** [ndarray.max()]: [ValueError] on an empty array. *)
Definition np_max (xs : list Q) : result Q :=
  match xs with
  | [] => Exc ValueError
  | x :: xs' => Ret (fold_left py_max xs' x)
  end.

(** ** model.py: synthetic data and training *)

(** A frame is the list of its rows; a column a row lacks is missing there. *)
Abbreviation DataFrame := (list (gmap string value)).

Inductive time_choice : Type := Morning | Afternoon | Night.

Definition time_label (t : time_choice) : string :=
  match t with
  | Morning => "Morning"
  | Afternoon => "Afternoon"
  | Night => "Night"
  end.

(** One row of pseudo-random draws. *)
Record sample : Type := {
  draw_sleep : Q;
  draw_driving : Q;
  draw_caffeine : Q;
  draw_rest : Q;
  draw_age : Z;
  draw_stress : Q;
  draw_time : time_choice
}.

Definition sample_row (x : sample) : gmap string value :=
  <["Sleep_Hours" := VNum (draw_sleep x)]>
  (<["Driving_Hours" := VNum (draw_driving x)]>
  (<["Caffeine_Cups" := VNum (draw_caffeine x)]>
  (<["Rest_Breaks" := VNum (draw_rest x)]>
  (<["Age" := VNum (inject_Z (draw_age x))]>
  (<["Stress_Level" := VNum (draw_stress x)]>
  (<["Time_of_Day" := VStr (time_label (draw_time x))]> ∅)))))).

(** [generate_synthetic_data]: the table of the draws the seeded generator
    produced, one row per sample. *)
Definition generate_synthetic_data (draws : list sample) : DataFrame :=
  sample_row <$> draws.

(** [df.apply(f, axis=1)]: [f] on every row, in order; the first exception
    aborts. *)
Fixpoint df_apply {A} (f : Py (gmap string value) A) (df : DataFrame)
  : result (list A) :=
  match df with
  | [] => Ret []
  | row :: df' =>
      x ← fst (f row);
      xs ← df_apply f df';
      mret (x :: xs)
  end.

(** [df[col]]: the column as a list; [KeyError] when it is missing. *)
Fixpoint df_getcol (col : string) (df : DataFrame) : result (list value) :=
  match df with
  | [] => Ret []
  | row :: df' =>
      match row !! col with
      | Some v => vs ← df_getcol col df'; mret (v :: vs)
      | None => Exc (KeyError col)
      end
  end.

(** [df[col] = values]. *)
Definition df_setcol (col : string) (vals : list value) (df : DataFrame)
  : DataFrame :=
  zip_with (λ row v, <[col := v]> row) df vals.

(** [lambda x: 'Fatigued' if x >= 5 else 'Alert']. *)
Definition driver_status (x : Q) : string :=
  if py_ge x 5 then "Fatigued" else "Alert".

Definition value_num (v : value) : result Q :=
  match v with
  | VNum q => Ret q
  | VStr _ => Exc TypeError
  end.

Fixpoint series_apply {B} (f : Q → B) (col : list value) : result (list B) :=
  match col with
  | [] => Ret []
  | v :: col' =>
      x ← value_num v;
      ys ← series_apply f col';
      mret (f x :: ys)
  end.

(** Lines 40-42 of [train_model]: the generated frame with its
    [Fatigue_Score] and [Driver_Status] columns. *)
Definition labelled_frame (draws : list sample) : result DataFrame :=
  let df := generate_synthetic_data draws in
  scores ← df_apply weighted_fatigue_score df;
  let df := df_setcol "Fatigue_Score" (VNum <$> scores) df in
  col ← df_getcol "Fatigue_Score" df;
  status ← series_apply driver_status col;
  let df := df_setcol "Driver_Status" (VStr <$> status) df in
  mret df.

Definition feature_columns : list string :=
  ["Sleep_Hours"; "Driving_Hours"; "Caffeine_Cups"; "Rest_Breaks";
   "Age"; "Stress_Level"; "Time_of_Day_enc"].

(** [df[columns]] of one row. *)
Fixpoint row_select (cols : list string) (row : gmap string value)
  : result (list value) :=
  match cols with
  | [] => Ret []
  | c :: cols' =>
      match row !! c with
      | Some v => vs ← row_select cols' row; mret (v :: vs)
      | None => Exc (KeyError c)
      end
  end.

Fixpoint result_map {A B} (f : A → result B) (l : list A) : result (list B) :=
  match l with
  | [] => Ret []
  | a :: l' => b ← f a; bs ← result_map f l'; mret (b :: bs)
  end.

Definition value_str (v : value) : result string :=
  match v with
  | VStr s => Ret s
  | VNum _ => Exc TypeError
  end.

Section Training.
(** The fitting procedures of [StandardScaler] and
    [RandomForestClassifier(n_estimators=300, random_state=42)]. *)
Variable fit_scaler : list (list Q) → Scaler.
Variable fit_forest : list (list Q) → list string → Classifier.

Definition train_model (draws : list sample)
  : result (Classifier * Scaler * LabelEncoder) :=
  df ← labelled_frame draws;
  tod ← df_getcol "Time_of_Day" df;
  labels ← result_map value_str tod;
  let le_time := le_fit labels in
  enc ← result_map (le_transform le_time) tod;
  let df := df_setcol "Time_of_Day_enc" (VNum <$> enc) df in
  X ← result_map (λ row, row_select feature_columns row ≫= to_float_array) df;
  ycol ← df_getcol "Driver_Status" df;
  y ← result_map value_str ycol;
  let scaler := fit_scaler X in
  let X_scaled := scaler_transform scaler <$> X in
  let model := fit_forest X_scaled y in
  mret (model, scaler, le_time).
End Training.

(** ** model.py: prediction *)

Definition predict_status {S} `{HasRow S}
    (model : Classifier) (scaler : Scaler) (le_time : LabelEncoder)
  : Py S (string * Q * Q) :=
  sleep ← getitem "Sleep_Hours";
  driving ← getitem "Driving_Hours";
  caffeine ← getitem "Caffeine_Cups";
  rest ← getitem "Rest_Breaks";
  age ← getitem "Age";
  stress ← getitem "Stress_Level";
  tod ← getitem "Time_of_Day";
  tod_enc ← lift_result (le_transform le_time tod);
  let X := [sleep; driving; caffeine; rest; age; stress; VNum tod_enc] in
  X ← lift_result (to_float_array X);
  let X_scaled := scaler_transform scaler X in
  let pred := predict model X_scaled in
  let probs := predict_proba model X_scaled in
  confidence ← lift_result (np_max probs);
  (* [float(...)] is the identity on rationals *)
  score ← weighted_fatigue_score;
  mret (pred, confidence, score).

(** ** utils.py: the figures

    A figure is modelled by the data the code puts into it; layout,
    fonts and margins are left out. *)

Record gauge_step : Type := {
  step_range : Q * Q;
  step_color : string
}.

Record gauge : Type := {
  gauge_value : Q;
  axis_range_max : Q;
  bar_color : string;
  gauge_steps : list gauge_step;
  threshold_value : Q
}.

(** [create_gauge_chart(score, max_score)]; the app always takes the
    default [max_score = 10]. *)
Definition create_gauge_chart (score max_score : Q) : gauge :=
  {| gauge_value := score;
     axis_range_max := max_score;
     bar_color := get_risk_color score;
     gauge_steps :=
       [ {| step_range := (0, 3); step_color := "#d1fae5" |};
         {| step_range := (3, 5); step_color := "#fef3c7" |};
         {| step_range := (5, 10); step_color := "#fee2e2" |} ];
     threshold_value := 5 |}.

Record radar : Type := {
  radar_r : list Q;
  radar_theta : list string;
  radialaxis_range : Q * Q
}.

(** [create_feature_radar(input_data)]: the list of values is built left
    to right, each element reading its column. *)
Definition create_feature_radar {S} `{HasRow S} : Py S radar :=
  let categories :=
    ["Sleep Quality"; "Driving Time"; "Caffeine Level"; "Rest Breaks";
     "Stress Level"] in
  sleep ← getnum "Sleep_Hours";
  let v1 := sleep / 12 * 10 in
  driving ← getnum "Driving_Hours";
  let v2 := (16 - driving) / 16 * 10 in
  caffeine ← getnum "Caffeine_Cups";
  let v3 := caffeine / 5 * 10 in
  rest ← getnum "Rest_Breaks";
  let v4 := rest / 120 * 10 in
  stress ← getnum "Stress_Level";
  let v5 := (10 - stress) / 10 * 10 in
  let values := [v1; v2; v3; v4; v5] in
  mret {| radar_r := values; radar_theta := categories;
          radialaxis_range := (0, 10) |}.

Record trace : Type := {
  trace_name : string;
  trace_x : list value;
  trace_y : list value;
  trace_text : list value;
  marker_color : string
}.

Definition get_state {S} : Py S S := λ s, (Ret s, s).

Definition put_state {S} (s' : S) : Py S unit := λ _, (Ret tt, s').

(** [df[df[col] == lit]]: the rows whose [col] equals the literal. *)
Definition df_where_eq (col lit : string) (df : DataFrame) : result DataFrame :=
  mask ← df_getcol col df;
  mret (fst <$> List.filter (λ rm, py_eq_str (snd rm) lit) (zip df mask)).

(** [sub[col]] for a frame [sub] filtered out of [parent]: the columns of
    [sub] are those of [parent], also when [sub] has no rows. *)
Definition sub_getcol (col : string) (parent sub : DataFrame)
  : result (list value) :=
  _ ← df_getcol col parent;
  df_getcol col sub.

Section Timeline.
(** [pd.to_datetime] on one cell (the result is a count of time units) and
    [DataFrame.sort_values(by, ascending)]. *)
Variable to_datetime : value → result Q.
Variable sort_values : string → bool → DataFrame → DataFrame.

(** One turn of the loop [for status in ['Alert', 'Fatigued']]. *)
Definition status_trace (records : DataFrame) (status : string)
  : result trace :=
  df_status ← df_where_eq "Prediction" status records;
  x ← sub_getcol "Timestamp_dt" records df_status;
  y ← sub_getcol "Fatigue_Score" records df_status;
  text ← sub_getcol "Name" records df_status;
  mret {| trace_name := status; trace_x := x; trace_y := y;
          trace_text := text;
          marker_color :=
            if String.eqb status "Alert" then "#10b981" else "#ef4444" |}.

(** [create_timeline_chart(records)]: the state is the frame the caller
    passed; the column assignment writes into it, the sort rebinds the
    local name only. *)
Definition create_timeline_chart : Py DataFrame (option (list trace)) :=
  records ← get_state;
  match records with
  | [] => mret None
  | _ :: _ =>
      ts ← lift_result (df_getcol "Timestamp" records);
      dts ← lift_result (result_map to_datetime ts);
      _ ← put_state (df_setcol "Timestamp_dt" (VNum <$> dts) records);
      records ← get_state;
      let records := sort_values "Timestamp_dt" true records in
      fig ← lift_result
              (result_map (status_trace records) ["Alert"; "Fatigued"]);
      mret (Some fig)
  end.
End Timeline.

(** ** streamlit_app.py: the "Add Driver" form handler *)

(** What the process can reach: the session's record table and the files
    on disk (path to contents). *)
Record world : Type := {
  driver_records : DataFrame;
  files : gmap string string
}.

(** The widget values of a submitted form. *)
Record form : Type := {
  name : string;
  sleep : Q;
  driving : Q;
  caffeine : Q;
  rest : Q;
  age : Z;
  stress : Z;
  tod : time_choice
}.

Definition form_input_data (f : form) : gmap string value :=
  <["Name" := VStr (name f)]>
  (<["Sleep_Hours" := VNum (sleep f)]>
  (<["Driving_Hours" := VNum (driving f)]>
  (<["Caffeine_Cups" := VNum (caffeine f)]>
  (<["Rest_Breaks" := VNum (rest f)]>
  (<["Age" := VNum (inject_Z (age f))]>
  (<["Stress_Level" := VNum (inject_Z (stress f))]>
  (<["Time_of_Day" := VStr (time_label (tod f))]> ∅))))))).

(** Run a callee on a local dict; the caller gets the result together with
    the dict as the callee left it. *)
Definition with_row {W A} (d : gmap string value)
    (m : Py (gmap string value * W) A) : Py W (A * gmap string value) :=
  λ w, match m (d, w) with
       | (Ret x, (d', w')) => (Ret (x, d'), w')
       | (Exc e, (_, w')) => (Exc e, w')
       end.

(** [st.session_state.driver_records = pd.concat([..., pd.DataFrame([record])],
    ignore_index=True)]. *)
Definition append_record (record : gmap string value) : Py world unit :=
  λ w, (Ret tt, {| driver_records := driver_records w ++ [record];
                   files := files w |}).

(** The [if submitted:] branch, up to the assignment to the session state;
    [now] is the clock reading, already formatted. *)
Definition add_driver_submit
    (model : Classifier) (scaler : Scaler) (le_time : LabelEncoder)
    (now : string) (f : form) : Py world unit :=
  let input_data := form_input_data f in
  '(pred, conf, score, input_data) ←
     with_row input_data (predict_status model scaler le_time);
  let record :=
    <["Confidence" := VNum conf]>
    (<["Prediction" := VStr pred]>
    (<["Fatigue_Score" := VNum score]>
    (<["Timestamp" := VStr now]> input_data))) in
  append_record record.

(** ** streamlit_app.py: session state, sidebar and pages *)

(** A fresh session: the table has its twelve columns and no rows. *)
Definition initial_world (fs : gmap string string) : world :=
  {| driver_records := []; files := fs |}.

(** The callee is handed the session's table itself. *)
Definition on_session_records {A} (m : Py DataFrame A) : Py world A :=
  λ w, match m (driver_records w) with
       | (r, df') => (r, {| driver_records := df'; files := files w |})
       end.

(** The callee is handed [driver_records.copy()]. *)
Definition on_records_copy {A} (m : Py DataFrame A) : Py world A :=
  λ w, (fst (m (driver_records w)), w).

(** Sidebar "Quick Stats": the total, and for a table with rows the
    numbers of alert and fatigued drivers and the mean score. *)
Record quick_stats : Type := {
  stat_total : Z;
  stat_alert : option Z;
  stat_fatigued : option Z;
  stat_avg_score : option Q
}.

Definition count_eq (lit : string) (col : list value) : Z :=
  Z.of_nat (length (List.filter (λ v, py_eq_str v lit) col)).

Definition series_mean (xs : list Q) : Q :=
  fold_left Qplus xs 0 / inject_Z (Z.of_nat (length xs)).

Definition sidebar_stats (records : DataFrame) : result quick_stats :=
  let total := Z.of_nat (length records) in
  if (0 <? total)%Z then
    preds ← df_getcol "Prediction" records;
    let fatigued := count_eq "Fatigued" preds in
    let alert := (total - fatigued)%Z in
    scores ← df_getcol "Fatigue_Score" records;
    nums ← result_map value_num scores;
    let avg_score := series_mean nums in
    mret {| stat_total := total; stat_alert := Some alert;
            stat_fatigued := Some fatigued;
            stat_avg_score := Some avg_score |}
  else
    mret {| stat_total := total; stat_alert := None;
            stat_fatigued := None; stat_avg_score := None |}.

Inductive severity : Type := st_success | st_warning | st_error.

(** The banner under the charts: the message and the call that shows it. *)
Definition action_banner (score : Q) : severity * string :=
  let msg := get_action_message score in
  if py_lt score 3 then (st_success, msg)
  else if py_lt score 5 then (st_warning, msg)
  else (st_error, msg).

(** What the Dashboard shows for a table with rows.  Numbers that the page
    formats ([conf*100] to one decimal) are kept as numbers. *)
Record dashboard_view : Type := {
  view_recent : DataFrame;
  view_timeline : option (list trace);
  view_driver : value;
  view_status : value;
  view_confidence_pct : Q;
  view_gauge : gauge;
  view_radar : radar;
  view_banner : severity * string
}.

(** [df.tail(n)]. *)
Definition df_tail (n : nat) (df : DataFrame) : DataFrame :=
  drop (length df - n) df.

(** [f"{conf*100:.1f}%"]: a string cannot be formatted with [.1f]. *)
Definition percent (conf : value) : result Q :=
  match conf with
  | VNum c => Ret (c * 100)
  | VStr _ => Exc ValueError
  end.

(** What the Analytics page shows for a table with rows; the bar chart is
    kept as the count of each label. *)
Record analytics_view : Type := {
  view_status_counts : string → Z;
  view_trend : option (list trace)
}.

Inductive action : Type :=
  | Submit (now : string) (f : form)
  | OpenDashboard
  | OpenAnalytics
  | ClearAllRecords
  | RemoveLastEntry.

Section Pages.
Variable to_datetime : value → result Q.
Variable sort_values : string → bool → DataFrame → DataFrame.
Variable model : Classifier.
Variable scaler : Scaler.
Variable le_time : LabelEncoder.

(** The Dashboard page; [None] stands for "No assessments yet". *)
Definition dashboard_page : Py world (option dashboard_view) :=
  w ← get_state;
  match driver_records w with
  | [] => mret None
  | _ :: _ =>
      let recent :=
        sort_values "Timestamp" false (df_tail 10 (driver_records w)) in
      timeline_fig ←
        on_session_records (create_timeline_chart to_datetime sort_values);
      w ← get_state;
      match reverse (driver_records w) with
      | [] => mret None
      | last :: _ =>
          '(score, pred, conf, driver, pct, g, r) ←
            lift_result
              (score ← from_option Ret (Exc (KeyError "Fatigue_Score"))
                         (last !! "Fatigue_Score");
               pred ← from_option Ret (Exc (KeyError "Prediction"))
                        (last !! "Prediction");
               conf ← from_option Ret (Exc (KeyError "Confidence"))
                        (last !! "Confidence");
               driver ← from_option Ret (Exc (KeyError "Name"))
                          (last !! "Name");
               pct ← percent conf;
               score ← value_num score;
               let g := create_gauge_chart score 10 in
               r ← fst (create_feature_radar last);
               mret (score, pred, conf, driver, pct, g, r));
          mret (Some {| view_recent := recent;
                        view_timeline := timeline_fig;
                        view_driver := driver;
                        view_status := pred;
                        view_confidence_pct := pct;
                        view_gauge := g;
                        view_radar := r;
                        view_banner := action_banner score |})
      end
  end.

(** The Analytics page works on a copy of the table. *)
Definition analytics_page : Py world (option analytics_view) :=
  w ← get_state;
  match driver_records w with
  | [] => mret None
  | _ :: _ =>
      preds ← lift_result (df_getcol "Prediction" (driver_records w));
      timeline_fig ←
        on_records_copy (create_timeline_chart to_datetime sort_values);
      mret (Some {| view_status_counts := λ label, count_eq label preds;
                    view_trend := timeline_fig |})
  end.

(** The two buttons of the Records page; they are only drawn for a table
    with rows. *)
Definition clear_all_records : Py world unit :=
  λ w, match driver_records w with
       | [] => (Ret tt, w)
       | _ :: _ => (Ret tt, {| driver_records := []; files := files w |})
       end.

(** [driver_records.iloc[:-1]]. *)
Definition remove_last_entry : Py world unit :=
  λ w, match driver_records w with
       | [] => (Ret tt, w)
       | _ :: _ =>
           (Ret tt, {| driver_records :=
                         take (length (driver_records w) - 1)
                              (driver_records w);
                       files := files w |})
       end.

(** One interaction with the app, as far as the state goes. *)
Definition step (a : action) : Py world unit :=
  match a with
  | Submit now f => add_driver_submit model scaler le_time now f
  | OpenDashboard => _ ← dashboard_page; mret tt
  | OpenAnalytics => _ ← analytics_page; mret tt
  | ClearAllRecords => clear_all_records
  | RemoveLastEntry => remove_last_entry
  end.
End Pages.

(** * Vocabulary of the properties *)

(** A computation is read-only when it hands back the state it received,
    whatever it returns or raises. *)
Definition read_only {S A} (m : Py S A) : Prop := ∀ s, snd (m s) = s.

(** A computation whose outcome is a function of the row alone. *)
Definition row_determined {S1 S2 A} `{HasRow S1} `{HasRow S2}
    (m1 : Py S1 A) (m2 : Py S2 A) : Prop :=
  ∀ s1 s2, row_of s1 = row_of s2 → fst (m1 s1) = fst (m2 s2).

(** The row holds these five numbers and this time of day. *)
Record row_fields (row : gmap string value)
    (sleep driving caffeine rest stress : Q) (tod : value) : Prop := {
  rf_sleep : row !! "Sleep_Hours" = Some (VNum sleep);
  rf_driving : row !! "Driving_Hours" = Some (VNum driving);
  rf_caffeine : row !! "Caffeine_Cups" = Some (VNum caffeine);
  rf_rest : row !! "Rest_Breaks" = Some (VNum rest);
  rf_stress : row !! "Stress_Level" = Some (VNum stress);
  rf_tod : row !! "Time_of_Day" = Some tod
}.

(** The value the body of [weighted_fatigue_score] accumulates. *)
Definition score_value (sleep driving caffeine rest stress : Q) (tod : value)
  : Q :=
  let score := 0 in
  let score := score + py_max 0 (8 - sleep) * 1.5 in
  let score := score + py_max 0 (driving - 6) * 1.2 in
  let score := score + (if py_ge caffeine 2 then 0 else 1.0) in
  let score := score + py_max 0 (20 - rest) * 0.1 in
  let score := score + (if py_gt stress 5 then (stress - 5) * 0.5 else 0) in
  if py_eq_str tod "Night" then score + 1.0 else score.

(** The six summands, in the words of the specification. *)
Definition sleep_term (sleep : Q) : Q := Qmax 0 (8 - sleep) * 1.5.
Definition driving_term (driving : Q) : Q := Qmax 0 (driving - 6) * 1.2.
Definition caffeine_term (caffeine : Q) : Q :=
  if Qlt_le_dec caffeine 2 then 1.0 else 0.
Definition rest_term (rest : Q) : Q := Qmax 0 (20 - rest) * 0.1.
Definition stress_term (stress : Q) : Q :=
  if Qlt_le_dec 5 stress then (stress - 5) * 0.5 else 0.
Definition night_term (tod : value) : Q :=
  match tod with
  | VStr "Night" => 1.0
  | _ => 0
  end.

Definition six_term_sum (sleep driving caffeine rest stress : Q) (tod : value)
  : Q :=
  sleep_term sleep + driving_term driving + caffeine_term caffeine
  + rest_term rest + stress_term stress + night_term tod.

Definition sample_score (x : sample) : Q :=
  score_value (draw_sleep x) (draw_driving x) (draw_caffeine x)
    (draw_rest x) (draw_stress x) (VStr (time_label (draw_time x))).

(** A generated row with its two derived columns. *)
Definition labelled_row (x : sample) : gmap string value :=
  <["Driver_Status" := VStr (driver_status (sample_score x))]>
  (<["Fatigue_Score" := VNum (sample_score x)]> (sample_row x)).

(** The probabilities a fitted classifier reports: at least one class, each
    probability between 0 and 1. *)
Definition proba_valid (model : Classifier) : Prop :=
  ∀ X, predict_proba model X ≠ []
       ∧ ∀ p, p ∈ predict_proba model X → 0 <= p ∧ p <= 1.

(** The feature row [predict_status] hands to the classifier. *)
Definition scaled_features (scaler : Scaler)
    (sleep driving caffeine rest age stress tod_enc : Q) : list Q :=
  scaler_transform scaler
    [sleep; driving; caffeine; rest; age; stress; tod_enc].

Definition sample_label (x : sample) : string := time_label (draw_time x).

(** The code [le_time] gives a sample's time of day. *)
Definition sample_enc (le : LabelEncoder) (x : sample) : Q :=
  match index_of (sample_label x) (classes_ le) with
  | Some i => inject_Z (Z.of_nat i)
  | None => 0
  end.

(** The feature row of a sample, before scaling. *)
Definition sample_features (le : LabelEncoder) (x : sample) : list Q :=
  [draw_sleep x; draw_driving x; draw_caffeine x; draw_rest x;
   inject_Z (draw_age x); draw_stress x; sample_enc le x].

(** What [train_model] hands to the two fitting procedures: the unscaled
    feature rows and the label of each row. *)
Definition training_features (draws : list sample) : list (list Q) :=
  sample_features (le_fit (sample_label <$> draws)) <$> draws.

Definition training_labels (draws : list sample) : list string :=
  (driver_status ∘ sample_score) <$> draws.

(** The columns the form supplies. *)
Definition input_columns : list string :=
  ["Name"; "Sleep_Hours"; "Driving_Hours"; "Caffeine_Cups"; "Rest_Breaks";
   "Age"; "Stress_Level"; "Time_of_Day"].

(** The columns [weighted_fatigue_score] reads. *)
Definition score_columns : list string :=
  ["Sleep_Hours"; "Driving_Hours"; "Caffeine_Cups"; "Rest_Breaks";
   "Stress_Level"; "Time_of_Day"].

(** Two rows hold the same thing (or nothing) in each of these columns. *)
Definition agree_on (cols : list string) (r1 r2 : gmap string value) : Prop :=
  ∀ k, k ∈ cols → r1 !! k = r2 !! k.

(** The intervals [generate_synthetic_data] draws from:
    [np.random.uniform(low, high)] yields low <= x < high. *)
Definition in_ranges (x : sample) : Prop :=
  (3 <= draw_sleep x ∧ draw_sleep x < 12)
  ∧ (0 <= draw_driving x ∧ draw_driving x < 16)
  ∧ (0 <= draw_caffeine x ∧ draw_caffeine x < 5)
  ∧ (0 <= draw_rest x ∧ draw_rest x < 120)
  ∧ (1 <= draw_stress x ∧ draw_stress x < 10).

(** Whether a time of day occurs among the draws, and the class list that
    results: the labels that occur, in alphabetical order. *)
Definition time_eqb (a b : time_choice) : bool :=
  match a, b with
  | Morning, Morning | Afternoon, Afternoon | Night, Night => true
  | _, _ => false
  end.

Definition drawn (t : time_choice) (draws : list sample) : bool :=
  existsb (λ x, time_eqb (draw_time x) t) draws.

Definition drawn_classes (draws : list sample) : list string :=
  ((if drawn Afternoon draws then ["Afternoon"] else [])
   ++ (if drawn Morning draws then ["Morning"] else [])
   ++ (if drawn Night draws then ["Night"] else []))%list.

(** The cell of a row, for rows known to have the column. *)
Definition cell (col : string) (row : gmap string value) : value :=
  default (VStr "") (row !! col).

(** The parsed timestamp of a row, for rows whose timestamp parses. *)
Definition stamp_of (to_datetime : value → result Q)
    (row : gmap string value) : Q :=
  match to_datetime (cell "Timestamp" row) with
  | Ret dt => dt
  | Exc _ => 0
  end.

(** The row as [create_timeline_chart] leaves it in the caller's frame. *)
Definition stamped (to_datetime : value → result Q)
    (row : gmap string value) : gmap string value :=
  <["Timestamp_dt" := VNum (stamp_of to_datetime row)]> row.

(** A row the timeline can plot: its timestamp parses and it has a
    prediction, a score and a name. *)
Definition plottable (to_datetime : value → result Q)
    (row : gmap string value) : Prop :=
  (∃ ts dt, row !! "Timestamp" = Some ts ∧ to_datetime ts = Ret dt)
  ∧ is_Some (row !! "Prediction")
  ∧ is_Some (row !! "Fatigue_Score")
  ∧ is_Some (row !! "Name").

(** The rows whose Prediction is the given status. *)
Definition rows_with (status : string) (records : DataFrame) : DataFrame :=
  List.filter (λ row, py_eq_str (cell "Prediction" row) status) records.

(** The record a returning submission appends. *)
Definition submitted_record (now : string) (f : form) (pred : string)
    (conf : Q) : gmap string value :=
  <["Confidence" := VNum conf]>
  (<["Prediction" := VStr pred]>
  (<["Fatigue_Score" :=
       VNum (score_value (sleep f) (driving f) (caffeine f) (rest f)
               (inject_Z (stress f)) (VStr (time_label (tod f))))]>
  (<["Timestamp" := VStr now]> (form_input_data f)))).

(** A record as the form handler stores it: the input columns, the four
    derived columns, and a Fatigue_Score that is the score of the record's
    own input columns. *)
Definition stored_record (r : gmap string value) : Prop :=
  ∃ sleep driving caffeine rest age stress label name now pred conf,
    row_fields r sleep driving caffeine rest stress (VStr label)
    ∧ r !! "Age" = Some (VNum age)
    ∧ r !! "Name" = Some (VStr name)
    ∧ r !! "Timestamp" = Some (VStr now)
    ∧ r !! "Prediction" = Some (VStr pred)
    ∧ r !! "Confidence" = Some (VNum conf)
    ∧ r !! "Fatigue_Score"
      = Some (VNum (score_value sleep driving caffeine rest stress
                      (VStr label))).

(** The session states the app can be in: a fresh session, and whatever
    an interaction leaves behind, also when it raised. *)
Inductive reachable (to_datetime : value → result Q)
    (sort_values : string → bool → DataFrame → DataFrame)
    (model : Classifier) (scaler : Scaler) (le_time : LabelEncoder)
    (fs : gmap string string) : world → Prop :=
  | reach_fresh :
      reachable to_datetime sort_values model scaler le_time fs
        (initial_world fs)
  | reach_step (a : action) (w : world) :
      reachable to_datetime sort_values model scaler le_time fs w →
      reachable to_datetime sort_values model scaler le_time fs
        (snd (step to_datetime sort_values model scaler le_time a w)).

(** The trace drawn for a status from the sorted frame. *)
Definition status_trace_of (sorted : DataFrame) (status : string) : trace :=
  {| trace_name := status;
     trace_x := cell "Timestamp_dt" <$> rows_with status sorted;
     trace_y := cell "Fatigue_Score" <$> rows_with status sorted;
     trace_text := cell "Name" <$> rows_with status sorted;
     marker_color :=
       if String.eqb status "Alert" then "#10b981" else "#ef4444" |}.

(** * Concrete rows, draws and stand-in estimators *)

(** The row of the worked example. *)
Definition example_row : gmap string value :=
  <["Sleep_Hours" := VNum 7]>
  (<["Driving_Hours" := VNum 5]>
  (<["Caffeine_Cups" := VNum 1]>
  (<["Rest_Breaks" := VNum 30]>
  (<["Stress_Level" := VNum 4]>
  (<["Time_of_Day" := VStr "Morning"]> ∅))))).

(** A night shift after a short sleep: every penalty applies. *)
Definition night_row : gmap string value :=
  <["Name" := VStr "Driver 1"]>
  (<["Sleep_Hours" := VNum 5]>
  (<["Driving_Hours" := VNum 9]>
  (<["Caffeine_Cups" := VNum 0]>
  (<["Rest_Breaks" := VNum 10]>
  (<["Age" := VNum 35]>
  (<["Stress_Level" := VNum 8]>
  (<["Time_of_Day" := VStr "Night"]> ∅))))))).

(** A row whose time of day is none of the three choices. *)
Definition evening_row : gmap string value :=
  <["Time_of_Day" := VStr "Evening"]> night_row.

Definition tired_sample : sample :=
  {| draw_sleep := 4; draw_driving := 11; draw_caffeine := 0.5;
     draw_rest := 15; draw_age := 52; draw_stress := 7.5;
     draw_time := Night |}.

Definition rested_sample : sample :=
  {| draw_sleep := 9; draw_driving := 3; draw_caffeine := 2.5;
     draw_rest := 45; draw_age := 29; draw_stress := 2;
     draw_time := Afternoon |}.

Definition fresh_sample : sample :=
  {| draw_sleep := 7.5; draw_driving := 6.5; draw_caffeine := 3;
     draw_rest := 90; draw_age := 41; draw_stress := 5.5;
     draw_time := Morning |}.

Definition three_draws : list sample :=
  [tired_sample; rested_sample; fresh_sample].

(** Stand-ins for the two fitting procedures: a scaler that leaves the
    features as they are, and a one-split classifier on Driving_Hours. *)
Definition fit_plain_scaler (X : list (list Q)) : Scaler :=
  {| scaler_transform := λ x, x |}.

Definition stump : Classifier :=
  {| predict := λ x,
       match x !! 1%nat with
       | Some d => if py_gt d 8 then "Fatigued" else "Alert"
       | None => "Alert"
       end;
     predict_proba := λ x,
       match x !! 1%nat with
       | Some d => if py_gt d 8 then [0.2; 0.8] else [0.9; 0.1]
       | None => [0.9; 0.1]
       end |}.

Definition fit_stump (X : list (list Q)) (y : list string) : Classifier :=
  stump.

(** The encoder fitted on draws in which all three times of day occur. *)
Definition three_class_encoder : LabelEncoder :=
  le_fit (sample_label <$> three_draws).

Definition night_form : form :=
  {| name := "Driver 1"; sleep := 5; driving := 9; caffeine := 0;
     rest := 10; age := 35; stress := 8; tod := Night |}.

(** A session that already holds one record, next to the stylesheet. *)
Definition one_record_world : world :=
  {| driver_records :=
       [<["Confidence" := VNum 0.9]>
        (<["Prediction" := VStr "Alert"]>
        (<["Fatigue_Score" := VNum 2.5]>
        (<["Timestamp" := VStr "2024-05-01 09:00:00"]>
        (<["Age" := VNum 35]>
        (<["Name" := VStr "Driver 0"]> example_row)))))];
     files := {[ "style.css" := "body { font-family: Inter; }" ]} |}.

(** Stand-ins for the two pandas functions: timestamps are read as the
    number their digits spell (separators skipped), and frames are sorted
    by insertion on the numeric cell. *)
Fixpoint digits_value (acc : Z) (s : string) : result Q :=
  match s with
  | EmptyString => Ret (inject_Z acc)
  | String c s' =>
      let n := Ascii.nat_of_ascii c in
      if (48 <=? n)%nat && (n <=? 57)%nat
      then digits_value (acc * 10 + Z.of_nat (n - 48)) s'
      else if (n =? 45)%nat || (n =? 32)%nat || (n =? 58)%nat
      then digits_value acc s'
      else Exc ValueError
  end.

Definition read_timestamp (v : value) : result Q :=
  match v with
  | VStr s => digits_value 0 s
  | VNum q => Ret q
  end.

Definition key_of (col : string) (row : gmap string value) : Q :=
  match row !! col with
  | Some (VNum q) => q
  | _ => 0
  end.

Fixpoint insert_by (col : string) (ascending : bool)
    (row : gmap string value) (df : DataFrame) : DataFrame :=
  match df with
  | [] => [row]
  | r :: df' =>
      if (if ascending then Qle_bool (key_of col row) (key_of col r)
          else Qle_bool (key_of col r) (key_of col row))
      then row :: df
      else r :: insert_by col ascending row df'
  end.

Definition insertion_sort (col : string) (ascending : bool) (df : DataFrame)
  : DataFrame :=
  foldr (insert_by col ascending) [] df.

(** A session table of two records, the earlier one predicted "Alert". *)
Definition alert_record : gmap string value :=
  <["Confidence" := VNum 0.9]>
  (<["Prediction" := VStr "Alert"]>
  (<["Fatigue_Score" := VNum 2.5]>
  (<["Timestamp" := VStr "2024-05-01 09:00:00"]>
  (<["Age" := VNum 35]>
  (<["Name" := VStr "Driver 0"]> example_row))))).

Definition fatigued_record : gmap string value :=
  <["Confidence" := VNum 0.8]>
  (<["Prediction" := VStr "Fatigued"]>
  (<["Fatigue_Score" := VNum 12.6]>
  (<["Timestamp" := VStr "2024-05-01 10:30:00"]> night_row))).

Definition two_records : DataFrame := [alert_record; fatigued_record].

Definition two_record_world : world :=
  {| driver_records := two_records;
     files := {[ "style.css" := "body { font-family: Inter; }" ]} |}.

(** A fresh session, and the session after one submission. *)
Definition fresh_world : world := initial_world ∅.

Definition first_world : world :=
  snd (add_driver_submit stump (fit_plain_scaler []) three_class_encoder
         "2024-05-01 10:30:00" night_form fresh_world).

(** * Properties *)

(** ** Comparisons and [max] *)

Lemma py_gt_true a b : py_gt a b = true ↔ b < a.
Proof.
  unfold py_gt. rewrite negb_true_iff, <- not_true_iff_false, Qle_bool_iff.
  split; [apply Qnot_le_lt | apply Qlt_not_le].
Qed.

Lemma py_gt_false a b : py_gt a b = false ↔ a <= b.
Proof. unfold py_gt. rewrite negb_false_iff. apply Qle_bool_iff. Qed.

Lemma py_ge_true a b : py_ge a b = true ↔ b <= a.
Proof. apply Qle_bool_iff. Qed.

Lemma py_ge_false a b : py_ge a b = false ↔ a < b.
Proof.
  unfold py_ge. rewrite <- not_true_iff_false, Qle_bool_iff.
  split; [apply Qnot_le_lt | apply Qlt_not_le].
Qed.

Lemma py_lt_true a b : py_lt a b = true ↔ a < b.
Proof. apply (py_gt_true b a). Qed.

Lemma py_lt_false a b : py_lt a b = false ↔ b <= a.
Proof. apply (py_gt_false b a). Qed.

(** Case analysis on every comparison of the goal, as rational facts. *)
Ltac py_cases :=
  repeat match goal with
    | |- context [py_gt ?a ?b] =>
        let E := fresh "E" in
        destruct (py_gt a b) eqn:E;
        [apply py_gt_true in E | apply py_gt_false in E]
    | |- context [py_ge ?a ?b] =>
        let E := fresh "E" in
        destruct (py_ge a b) eqn:E;
        [apply py_ge_true in E | apply py_ge_false in E]
    | |- context [py_lt ?a ?b] =>
        let E := fresh "E" in
        destruct (py_lt a b) eqn:E;
        [apply py_lt_true in E | apply py_lt_false in E]
    end.

Lemma py_max_Qmax a b : py_max a b == Qmax a b.
Proof.
  unfold py_max. py_cases.
  - symmetry. apply Q.max_r. lra.
  - symmetry. apply Q.max_l. lra.
Qed.

Lemma py_max_lower a b : a <= py_max a b.
Proof. unfold py_max. py_cases; lra. Qed.

Lemma py_max_upper a b : b <= py_max a b.
Proof. unfold py_max. py_cases; lra. Qed.

Lemma py_max_choice a b : py_max a b = a ∨ py_max a b = b.
Proof. unfold py_max. destruct (py_gt b a); auto. Qed.

(** ** Read-only computations *)

Lemma read_only_ret {S A} (x : A) : read_only (mret x : Py S A).
Proof. by intros s. Qed.

Lemma read_only_raise {S A} (e : exn) : read_only (raise e : Py S A).
Proof. by intros s. Qed.

Lemma read_only_lift {S A} (r : result A) : read_only (lift_result r : Py S A).
Proof. by intros s. Qed.

Lemma read_only_getitem {S} `{HasRow S} key : read_only (getitem key).
Proof. intros s. unfold getitem. by destruct (row_of s !! key). Qed.

Lemma read_only_bind {S A B} (m : Py S A) (f : A → Py S B) :
  read_only m → (∀ x, read_only (f x)) → read_only (m ≫= f).
Proof.
  intros Hm Hf s. unfold mbind, Py_bind.
  specialize (Hm s). destruct (m s) as [[x|e] s']; simpl in Hm; subst s'.
  - apply Hf.
  - done.
Qed.

Lemma read_only_as_num {S} v : read_only (as_num v : Py S Q).
Proof. destruct v; [apply read_only_ret | apply read_only_raise]. Qed.

Lemma read_only_getnum {S} `{HasRow S} key : read_only (getnum key).
Proof.
  apply read_only_bind; [apply read_only_getitem | apply read_only_as_num].
Qed.

Create HintDb py_ro.
#[export] Hint Resolve read_only_ret read_only_raise read_only_lift
  read_only_getitem read_only_getnum read_only_as_num : py_ro.

Ltac read_only_steps :=
  repeat first
    [ apply read_only_bind; [solve [auto with py_ro] | intros ?]
    | match goal with |- read_only (if ?b then _ else _) => destruct b end
    | solve [auto with py_ro] ].

Lemma read_only_score {S} `{HasRow S} :
  read_only (weighted_fatigue_score (S := S)).
Proof.
  unfold weighted_fatigue_score.
  do 4 (apply read_only_bind; [solve [auto with py_ro] | intros ?]).
  apply read_only_bind; [solve [auto with py_ro] | intros st].
  apply read_only_bind.
  - destruct (py_gt st 5); read_only_steps.
  - intros ?. read_only_steps.
Qed.

Lemma row_determined_getitem {S1 S2} `{HasRow S1} `{HasRow S2} key :
  row_determined (getitem (S := S1) key) (getitem (S := S2) key).
Proof.
  intros s1 s2 E. unfold getitem. rewrite E. by destruct (row_of s2 !! key).
Qed.

Lemma row_determined_pure {S1 S2 A} `{HasRow S1} `{HasRow S2} (r : result A) :
  row_determined (lift_result (S := S1) r) (lift_result (S := S2) r).
Proof. by intros s1 s2 _. Qed.

Lemma row_determined_bind {S1 S2 A B} `{HasRow S1} `{HasRow S2}
    (m1 : Py S1 A) (m2 : Py S2 A) (f1 : A → Py S1 B) (f2 : A → Py S2 B) :
  read_only m1 → read_only m2 →
  row_determined m1 m2 → (∀ x, row_determined (f1 x) (f2 x)) →
  row_determined (m1 ≫= f1) (m2 ≫= f2).
Proof.
  intros R1 R2 Hm Hf s1 s2 E. unfold mbind, Py_bind.
  specialize (Hm s1 s2 E). specialize (R1 s1). specialize (R2 s2).
  destruct (m1 s1) as [r1 s1'], (m2 s2) as [r2 s2']; simpl in *; subst.
  destruct r2; [by apply Hf | done].
Qed.

Lemma row_determined_getnum {S1 S2} `{HasRow S1} `{HasRow S2} key :
  row_determined (getnum (S := S1) key) (getnum (S := S2) key).
Proof.
  apply row_determined_bind; auto with py_ro.
  - apply row_determined_getitem.
  - intros [q|t]; apply (row_determined_pure (S1 := S1) (S2 := S2)).
Qed.

Lemma row_determined_score {S1 S2} `{HasRow S1} `{HasRow S2} :
  row_determined (weighted_fatigue_score (S := S1))
                 (weighted_fatigue_score (S := S2)).
Proof.
  unfold weighted_fatigue_score.
  do 5 (apply row_determined_bind;
        [auto with py_ro | auto with py_ro
        | apply row_determined_getnum | intros ?]).
  apply row_determined_bind.
  - destruct (py_gt _ 5); read_only_steps.
  - destruct (py_gt _ 5); read_only_steps.
  - destruct (py_gt _ 5).
    + apply row_determined_bind; auto with py_ro.
      * apply row_determined_getnum.
      * intros ?. apply (row_determined_pure (S1 := S1) (S2 := S2)).
    + apply (row_determined_pure (S1 := S1) (S2 := S2)).
  - intros ?. apply row_determined_bind; auto with py_ro.
    + apply row_determined_getitem.
    + intros ?. apply (row_determined_pure (S1 := S1) (S2 := S2)).
Qed.

(** ** The score of a row with numeric fields *)

Lemma bind_ret_run {S A B} (x : A) (f : A → Py S B) (s : S) :
  (mret x ≫= f) s = f x s.
Proof. reflexivity. Qed.

Lemma bind_lift_run {S A B} (x : A) (f : A → Py S B) (s : S) :
  (lift_result (Ret x) ≫= f) s = f x s.
Proof. reflexivity. Qed.

Lemma bind_getitem_run {S B} `{HasRow S} key v (f : value → Py S B) (s : S) :
  row_of s !! key = Some v → (getitem key ≫= f) s = f v s.
Proof. intros E. unfold mbind, Py_bind, getitem. by rewrite E. Qed.

Lemma bind_getnum_run {S B} `{HasRow S} key q (f : Q → Py S B) (s : S) :
  row_of s !! key = Some (VNum q) → (getnum key ≫= f) s = f q s.
Proof. intros E. unfold getnum, mbind, Py_bind, getitem. by rewrite E. Qed.

Lemma bind_assoc_run {S A B C} (m : Py S A) (f : A → Py S B)
    (g : B → Py S C) (s : S) :
  ((m ≫= f) ≫= g) s = (m ≫= (λ x, f x ≫= g)) s.
Proof.
  unfold mbind, Py_bind. by destruct (m s) as [[x|e] s'].
Qed.

(** One step of symbolic execution: the next read is answered by [E]. *)
Ltac py_read E :=
  cbv beta zeta;
  first [ rewrite (bind_getnum_run _ _ _ _ E)
        | rewrite (bind_getitem_run _ _ _ _ E) ];
  cbv beta zeta.

Lemma weighted_fatigue_score_run {S} `{HasRow S} (s : S)
    sleep driving caffeine rest stress tod :
  row_fields (row_of s) sleep driving caffeine rest stress tod →
  weighted_fatigue_score s
  = (Ret (score_value sleep driving caffeine rest stress tod), s).
Proof.
  intros [Hs Hd Hc Hr Hst Ht].
  unfold weighted_fatigue_score, score_value.
  py_read Hs. py_read Hd. py_read Hc. py_read Hr. py_read Hst.
  destruct (py_gt stress 5).
  - rewrite bind_assoc_run. py_read Hst.
    rewrite bind_ret_run. py_read Ht. reflexivity.
  - rewrite bind_ret_run. py_read Ht. reflexivity.
Qed.

Lemma night_term_eq tod :
  night_term tod = if py_eq_str tod "Night" then 1.0 else 0.
Proof.
  destruct tod as [q|s]; [done|]. simpl.
  destruct (String.eqb_spec s "Night") as [->|Hne]; [done|].
  unfold night_term.
  repeat (match goal with
          | |- context [match ?x with _ => _ end] =>
              lazymatch x with
              | VStr _ => fail
              | _ => destruct x; try done
              end
          end).
Qed.

Lemma caffeine_term_eq caffeine :
  (if py_ge caffeine 2 then 0 else 1.0) == caffeine_term caffeine.
Proof.
  unfold caffeine_term. destruct (Qlt_le_dec caffeine 2); py_cases; lra.
Qed.

Lemma stress_term_eq stress :
  (if py_gt stress 5 then (stress - 5) * 0.5 else 0) == stress_term stress.
Proof.
  unfold stress_term. destruct (Qlt_le_dec 5 stress); py_cases; lra.
Qed.

Lemma score_value_six_terms sleep driving caffeine rest stress tod :
  score_value sleep driving caffeine rest stress tod
  == six_term_sum sleep driving caffeine rest stress tod.
Proof.
  unfold score_value, six_term_sum, sleep_term, driving_term, rest_term.
  cbv zeta.
  rewrite night_term_eq, <- caffeine_term_eq, <- stress_term_eq.
  rewrite <- !py_max_Qmax.
  destruct (py_eq_str tod "Night"); lra.
Qed.

Lemma six_terms_nonneg sleep driving caffeine rest stress tod :
  0 <= sleep_term sleep ∧ 0 <= driving_term driving
  ∧ 0 <= caffeine_term caffeine ∧ 0 <= rest_term rest
  ∧ 0 <= stress_term stress ∧ 0 <= night_term tod.
Proof.
  unfold sleep_term, driving_term, caffeine_term, rest_term, stress_term.
  rewrite night_term_eq.
  pose proof (Q.le_max_l 0 (8 - sleep)).
  pose proof (Q.le_max_l 0 (driving - 6)).
  pose proof (Q.le_max_l 0 (20 - rest)).
  destruct (Qlt_le_dec caffeine 2), (Qlt_le_dec 5 stress),
    (py_eq_str tod "Night"); repeat split; lra.
Qed.

(** ** The scoring formula *)

(** C1.  On the row Sleep_Hours=7, Driving_Hours=5, Caffeine_Cups=1,
    Rest_Breaks=30, Stress_Level=4, Time_of_Day="Morning",
    [weighted_fatigue_score] returns 2.5 (and leaves the row as it was),
    and [get_risk_level] of that score is "Low Risk". *)
Theorem example_row_score :
  ∃ score, weighted_fatigue_score example_row = (Ret score, example_row)
           ∧ score == 2.5
           ∧ get_risk_level score = "Low Risk".
Proof.
  eexists. split; [|split].
  - vm_compute. reflexivity.
  - reflexivity.
  - reflexivity.
Qed.

Lemma night_row_fields : row_fields night_row 5 9 0 10 8 (VStr "Night").
Proof. constructor; reflexivity. Defined.

Lemma example_row_fields : row_fields example_row 7 5 1 30 4 (VStr "Morning").
Proof. constructor; reflexivity. Defined.

(** C2.  On every row holding numeric Sleep_Hours, Driving_Hours,
    Caffeine_Cups, Rest_Breaks and Stress_Level and some Time_of_Day,
    [weighted_fatigue_score] returns the sum of the six terms
    max(0, 8 - sleep) * 1.5, max(0, driving - 6) * 1.2, 1.0 exactly when
    caffeine < 2, max(0, 20 - rest) * 0.1, (stress - 5) * 0.5 exactly when
    stress > 5, and 1.0 exactly when the time of day is "Night". *)
Theorem score_is_six_term_sum {S} `{HasRow S} (s : S)
    sleep driving caffeine rest stress tod :
  row_fields (row_of s) sleep driving caffeine rest stress tod →
  ∃ score, weighted_fatigue_score s = (Ret score, s)
           ∧ score == six_term_sum sleep driving caffeine rest stress tod.
Proof.
  intros F. eexists. split.
  - apply (weighted_fatigue_score_run _ _ _ _ _ _ _ F).
  - apply score_value_six_terms.
Qed.

Lemma score_is_six_term_sum_witness :
  row_fields night_row 5 9 0 10 8 (VStr "Night")
  ∧ ∃ score, weighted_fatigue_score night_row = (Ret score, night_row)
             ∧ score == six_term_sum 5 9 0 10 8 (VStr "Night").
Proof.
  split.
  - exact night_row_fields.
  - exact (score_is_six_term_sum night_row 5 9 0 10 8 (VStr "Night")
             night_row_fields).
Defined.

(** C9.  On every row with numeric fields the returned score is at least 0:
    it is the sum of six summands, each of which is at least 0. *)
Theorem score_nonneg {S} `{HasRow S} (s : S)
    sleep driving caffeine rest stress tod :
  row_fields (row_of s) sleep driving caffeine rest stress tod →
  ∃ score, weighted_fatigue_score s = (Ret score, s)
           ∧ 0 <= score
           ∧ score == sleep_term sleep + driving_term driving
                      + caffeine_term caffeine + rest_term rest
                      + stress_term stress + night_term tod
           ∧ 0 <= sleep_term sleep ∧ 0 <= driving_term driving
           ∧ 0 <= caffeine_term caffeine ∧ 0 <= rest_term rest
           ∧ 0 <= stress_term stress ∧ 0 <= night_term tod.
Proof.
  intros F. eexists.
  split; [apply (weighted_fatigue_score_run _ _ _ _ _ _ _ F)|].
  pose proof (score_value_six_terms sleep driving caffeine rest stress tod)
    as E.
  pose proof (six_terms_nonneg sleep driving caffeine rest stress tod)
    as (H1 & H2 & H3 & H4 & H5 & H6).
  unfold six_term_sum in E. repeat split; try assumption.
  rewrite E. lra.
Qed.

Lemma score_nonneg_witness :
  row_fields example_row 7 5 1 30 4 (VStr "Morning")
  ∧ ∃ score, weighted_fatigue_score example_row = (Ret score, example_row)
             ∧ 0 <= score
             ∧ score == sleep_term 7 + driving_term 5
                        + caffeine_term 1 + rest_term 30
                        + stress_term 4 + night_term (VStr "Morning")
             ∧ 0 <= sleep_term 7 ∧ 0 <= driving_term 5
             ∧ 0 <= caffeine_term 1 ∧ 0 <= rest_term 30
             ∧ 0 <= stress_term 4 ∧ 0 <= night_term (VStr "Morning").
Proof.
  split.
  - exact example_row_fields.
  - exact (score_nonneg example_row 7 5 1 30 4 (VStr "Morning")
             example_row_fields).
Defined.

(** Replacing one numeric field leaves the others as they were. *)
Lemma row_fields_set_driving row sleep driving caffeine rest stress tod d :
  row_fields row sleep driving caffeine rest stress tod →
  row_fields (<["Driving_Hours" := VNum d]> row)
             sleep d caffeine rest stress tod.
Proof. intros [? ? ? ? ? ?]. constructor; by simplify_map_eq. Qed.

Lemma row_fields_set_sleep row sleep driving caffeine rest stress tod x :
  row_fields row sleep driving caffeine rest stress tod →
  row_fields (<["Sleep_Hours" := VNum x]> row)
             x driving caffeine rest stress tod.
Proof. intros [? ? ? ? ? ?]. constructor; by simplify_map_eq. Qed.

Lemma score_value_driving_mono sleep caffeine rest stress tod d1 d2 :
  d1 <= d2 →
  score_value sleep d1 caffeine rest stress tod
  <= score_value sleep d2 caffeine rest stress tod.
Proof.
  intros Hd. unfold score_value. cbv zeta.
  assert (py_max 0 (d1 - 6) <= py_max 0 (d2 - 6))
    by (unfold py_max; py_cases; lra).
  destruct (py_eq_str tod "Night"); lra.
Qed.

Lemma score_value_sleep_mono driving caffeine rest stress tod s1 s2 :
  s1 <= s2 →
  score_value s2 driving caffeine rest stress tod
  <= score_value s1 driving caffeine rest stress tod.
Proof.
  intros Hs. unfold score_value. cbv zeta.
  assert (py_max 0 (8 - s2) <= py_max 0 (8 - s1))
    by (unfold py_max; py_cases; lra).
  destruct (py_eq_str tod "Night"); lra.
Qed.

(** C3.  With all other fields held fixed, the score does not decrease when
    Driving_Hours grows from d1 to d2 with 6 <= d1 <= d2, and does not
    increase when Sleep_Hours grows from s1 to s2. *)
Theorem score_monotone (row : gmap string value)
    sleep driving caffeine rest stress tod :
  row_fields row sleep driving caffeine rest stress tod →
  (∀ d1 d2, 6 <= d1 → d1 <= d2 →
     ∃ q1 q2,
       fst (weighted_fatigue_score
              (<["Driving_Hours" := VNum d1]> row)) = Ret q1
       ∧ fst (weighted_fatigue_score
                (<["Driving_Hours" := VNum d2]> row)) = Ret q2
       ∧ q1 <= q2)
  ∧ (∀ s1 s2, s1 <= s2 →
     ∃ q1 q2,
       fst (weighted_fatigue_score
              (<["Sleep_Hours" := VNum s1]> row)) = Ret q1
       ∧ fst (weighted_fatigue_score
                (<["Sleep_Hours" := VNum s2]> row)) = Ret q2
       ∧ q2 <= q1).
Proof.
  intros F. split.
  - intros d1 d2 _ Hd. do 2 eexists. split; [|split].
    + erewrite weighted_fatigue_score_run;
        [reflexivity | by eapply row_fields_set_driving].
    + erewrite weighted_fatigue_score_run;
        [reflexivity | by eapply row_fields_set_driving].
    + by apply score_value_driving_mono.
  - intros s1 s2 Hs. do 2 eexists. split; [|split].
    + erewrite weighted_fatigue_score_run;
        [reflexivity | by eapply row_fields_set_sleep].
    + erewrite weighted_fatigue_score_run;
        [reflexivity | by eapply row_fields_set_sleep].
    + by apply score_value_sleep_mono.
Qed.

Lemma six_le_seven : 6 <= 7.
Proof. discriminate. Defined.

Lemma seven_le_ten : 7 <= 10.
Proof. discriminate. Defined.

Lemma four_le_six : 4 <= 6.
Proof. discriminate. Defined.

Lemma score_monotone_witness :
  row_fields night_row 5 9 0 10 8 (VStr "Night")
  ∧ 6 <= 7 ∧ 7 <= 10 ∧ 4 <= 6
  ∧ (∃ q1 q2,
       fst (weighted_fatigue_score
              (<["Driving_Hours" := VNum 7]> night_row)) = Ret q1
       ∧ fst (weighted_fatigue_score
                (<["Driving_Hours" := VNum 10]> night_row)) = Ret q2
       ∧ q1 <= q2)
  ∧ (∃ q1 q2,
       fst (weighted_fatigue_score
              (<["Sleep_Hours" := VNum 4]> night_row)) = Ret q1
       ∧ fst (weighted_fatigue_score
                (<["Sleep_Hours" := VNum 6]> night_row)) = Ret q2
       ∧ q2 <= q1).
Proof.
  split; [exact night_row_fields|].
  split; [exact six_le_seven|].
  split; [exact seven_le_ten|].
  split; [exact four_le_six|].
  split.
  - exact (proj1 (score_monotone night_row 5 9 0 10 8 (VStr "Night")
                    night_row_fields) 7 10 six_le_seven seven_le_ten).
  - exact (proj2 (score_monotone night_row 5 9 0 10 8 (VStr "Night")
                    night_row_fields) 4 6 four_le_six).
Defined.

(** C6.  [weighted_fatigue_score] is pure and deterministic: two
    evaluations on identical rows, in whatever program states, have the
    same outcome, and each evaluation leaves the whole state, the row
    included, as it found it. *)
Theorem score_pure_deterministic {S1 S2} `{HasRow S1} `{HasRow S2}
    (s1 : S1) (s2 : S2) :
  row_of s1 = row_of s2 →
  fst (weighted_fatigue_score s1) = fst (weighted_fatigue_score s2)
  ∧ snd (weighted_fatigue_score s1) = s1
  ∧ snd (weighted_fatigue_score s2) = s2.
Proof.
  intros E. split; [|split].
  - by apply row_determined_score.
  - apply read_only_score.
  - apply read_only_score.
Qed.

Lemma score_pure_deterministic_witness :
  row_of (night_row, 7%nat) = row_of night_row
  ∧ fst (weighted_fatigue_score (night_row, 7%nat))
    = fst (weighted_fatigue_score night_row)
  ∧ snd (weighted_fatigue_score (night_row, 7%nat)) = (night_row, 7%nat)
  ∧ snd (weighted_fatigue_score night_row) = night_row.
Proof.
  split.
  - reflexivity.
  - exact (score_pure_deterministic (night_row, 7%nat) night_row eq_refl).
Defined.

(** ** Risk bands *)

Lemma driver_status_fatigued x : driver_status x = "Fatigued" ↔ 5 <= x.
Proof.
  unfold driver_status. py_cases; split; try done; intros; lra.
Qed.

Lemma driver_status_alert x : driver_status x = "Alert" ↔ x < 5.
Proof.
  unfold driver_status. py_cases; split; try done; intros; lra.
Qed.

Lemma driver_status_cases x :
  driver_status x = "Fatigued" ∨ driver_status x = "Alert".
Proof. unfold driver_status. destruct (py_ge x 5); auto. Qed.

(** C10.  The three helpers cut the scores at the same thresholds: below 3
    they give "#10b981", "Low Risk" and the SAFE message; from 3 up to,
    not including, 5 they give "#f59e0b", "Moderate Risk" and the CAUTION
    message; from 5 on they give "#ef4444", "High Risk" and the DANGER
    message; and the last band is the one that training labels
    "Fatigued". *)
Theorem risk_bands_agree (s : Q) :
  (s < 3 →
     get_risk_color s = "#10b981" ∧ get_risk_level s = "Low Risk"
     ∧ get_action_message s = SAFE_MESSAGE)
  ∧ (3 <= s ∧ s < 5 →
     get_risk_color s = "#f59e0b" ∧ get_risk_level s = "Moderate Risk"
     ∧ get_action_message s = CAUTION_MESSAGE)
  ∧ (5 <= s →
     get_risk_color s = "#ef4444" ∧ get_risk_level s = "High Risk"
     ∧ get_action_message s = DANGER_MESSAGE)
  ∧ (get_risk_level s = "High Risk" ↔ driver_status s = "Fatigued").
Proof.
  unfold get_risk_color, get_risk_level, get_action_message.
  rewrite driver_status_fatigued.
  py_cases; repeat split; intros; try done; try lra.
  all: match goal with H : _ ∧ _ |- _ => destruct H end; lra.
Qed.

Lemma two_lt_three : 2 < 3.
Proof. reflexivity. Defined.

Lemma four_in_band : 3 <= 4 ∧ 4 < 5.
Proof. split; [discriminate | reflexivity]. Defined.

Lemma five_le_five : 5 <= 5.
Proof. discriminate. Defined.

Lemma risk_bands_agree_witness :
  (2 < 3 ∧ get_risk_color 2 = "#10b981" ∧ get_risk_level 2 = "Low Risk"
   ∧ get_action_message 2 = SAFE_MESSAGE)
  ∧ ((3 <= 4 ∧ 4 < 5) ∧ get_risk_color 4 = "#f59e0b"
     ∧ get_risk_level 4 = "Moderate Risk"
     ∧ get_action_message 4 = CAUTION_MESSAGE)
  ∧ (5 <= 5 ∧ get_risk_color 5 = "#ef4444" ∧ get_risk_level 5 = "High Risk"
     ∧ get_action_message 5 = DANGER_MESSAGE).
Proof.
  split; [|split].
  - split; [exact two_lt_three|].
    exact (proj1 (risk_bands_agree 2) two_lt_three).
  - split; [exact four_in_band|].
    exact (proj1 (proj2 (risk_bands_agree 4)) four_in_band).
  - split; [exact five_le_five|].
    exact (proj1 (proj2 (proj2 (risk_bands_agree 5))) five_le_five).
Defined.

(** ** Training labels *)

Lemma sample_row_fields (x : sample) :
  row_fields (sample_row x) (draw_sleep x) (draw_driving x) (draw_caffeine x)
    (draw_rest x) (draw_stress x) (VStr (time_label (draw_time x))).
Proof. constructor; reflexivity. Qed.

Lemma sample_row_score (x : sample) :
  weighted_fatigue_score (sample_row x) = (Ret (sample_score x), sample_row x).
Proof.
  apply (weighted_fatigue_score_run (sample_row x)), sample_row_fields.
Qed.

Lemma df_apply_generated (draws : list sample) :
  df_apply weighted_fatigue_score (generate_synthetic_data draws)
  = Ret (sample_score <$> draws).
Proof.
  unfold generate_synthetic_data.
  induction draws as [|x draws IH]; [done|].
  cbn [fmap list_fmap df_apply]. fold (fmap (M := list) sample_row draws).
  rewrite sample_row_score, IH. reflexivity.
Qed.

Lemma df_setcol_fmap {A} col (f : A → gmap string value) (v : A → value)
    (l : list A) :
  df_setcol col (v <$> l) (f <$> l) = (λ x, <[col := v x]> (f x)) <$> l.
Proof.
  unfold df_setcol. induction l as [|a l IH]; [done|].
  cbn. f_equal. apply IH.
Qed.

Lemma df_getcol_fmap {A} col (f : A → gmap string value) (v : A → value)
    (l : list A) :
  (∀ x, f x !! col = Some (v x)) →
  df_getcol col (f <$> l) = Ret (v <$> l).
Proof.
  intros Hf. induction l as [|a l IH]; [done|].
  cbn [fmap list_fmap df_getcol]. fold (fmap (M := list) f l).
  rewrite Hf, IH. reflexivity.
Qed.

Lemma series_apply_nums {B} (f : Q → B) (qs : list Q) :
  series_apply f (VNum <$> qs) = Ret (f <$> qs).
Proof.
  induction qs as [|q qs IH]; [done|].
  cbn [fmap list_fmap series_apply]. fold (fmap (M := list) VNum qs).
  rewrite IH. reflexivity.
Qed.

Lemma labelled_frame_rows (draws : list sample) :
  labelled_frame draws = Ret (labelled_row <$> draws).
Proof.
  unfold labelled_frame. rewrite df_apply_generated.
  cbn [mbind result_bind]. unfold generate_synthetic_data.
  rewrite <- list_fmap_compose, df_setcol_fmap.
  rewrite (df_getcol_fmap _ _ (VNum ∘ sample_score))
    by (intros x; apply lookup_insert_eq).
  cbn [mbind result_bind].
  rewrite list_fmap_compose, series_apply_nums.
  cbn [mbind result_bind mret result_ret].
  rewrite <- !list_fmap_compose.
  rewrite (df_setcol_fmap "Driver_Status"
             (λ x, <["Fatigue_Score" := (VNum ∘ sample_score) x]>
                     (sample_row x))
             (VStr ∘ driver_status ∘ sample_score)).
  reflexivity.
Qed.

(** ** Prediction *)

Lemma index_of_elem (s : string) (l : list string) :
  s ∈ l → ∃ i, index_of s l = Some i ∧ l !! i = Some s.
Proof.
  induction l as [|x l IH]; [by intros ?%elem_of_nil|].
  intros Hin. cbn [index_of].
  destruct (String.eqb_spec x s) as [->|Hne].
  - by exists 0%nat.
  - apply elem_of_cons in Hin as [->|Hin]; [done|].
    destruct (IH Hin) as (i & -> & Hi). by exists (S i).
Qed.

Lemma index_of_not_elem (s : string) (l : list string) :
  s ∉ l → index_of s l = None.
Proof.
  induction l as [|x l IH]; [done|].
  intros Hnin. apply not_elem_of_cons in Hnin as [Hne Hnin]. cbn [index_of].
  destruct (String.eqb_spec x s) as [->|_]; [done|].
  by rewrite (IH Hnin).
Qed.

Lemma le_transform_seen (le : LabelEncoder) (label : string) :
  label ∈ classes_ le →
  ∃ i, le_transform le (VStr label) = Ret (inject_Z (Z.of_nat i))
       ∧ classes_ le !! i = Some label.
Proof.
  intros (i & E & Hi)%index_of_elem. exists i.
  unfold le_transform. by rewrite E.
Qed.

Lemma le_transform_unseen (le : LabelEncoder) (label : string) :
  label ∉ classes_ le → le_transform le (VStr label) = Exc ValueError.
Proof.
  intros E%index_of_not_elem. unfold le_transform. by rewrite E.
Qed.

Lemma fold_py_max_upper (xs : list Q) (a : Q) :
  a <= fold_left py_max xs a ∧ ∀ p, p ∈ xs → p <= fold_left py_max xs a.
Proof.
  revert a. induction xs as [|x xs IH]; intros a; cbn [fold_left].
  - split; [lra | by intros p ?%elem_of_nil].
  - destruct (IH (py_max a x)) as [Ha Hxs].
    pose proof (py_max_lower a x). pose proof (py_max_upper a x).
    split; [lra|].
    intros p [->|Hp]%elem_of_cons; [lra | by apply Hxs].
Qed.

Lemma fold_py_max_elem (xs : list Q) (a : Q) :
  fold_left py_max xs a ∈ a :: xs.
Proof.
  revert a. induction xs as [|x xs IH]; intros a; cbn [fold_left].
  - apply list_elem_of_here.
  - specialize (IH (py_max a x)).
    apply elem_of_cons in IH as [E|IH].
    + rewrite E. destruct (py_max_choice a x) as [-> | ->].
      * apply list_elem_of_here.
      * apply list_elem_of_further, list_elem_of_here.
    + by do 2 apply list_elem_of_further.
Qed.

(** [np_max] returns an element of the array that bounds all of them. *)
Lemma np_max_spec (xs : list Q) :
  xs ≠ [] →
  ∃ m, np_max xs = Ret m ∧ m ∈ xs ∧ ∀ p, p ∈ xs → p <= m.
Proof.
  destruct xs as [|x xs]; [done|]. intros _.
  exists (fold_left py_max xs x). split; [done|].
  split; [apply fold_py_max_elem|].
  destruct (fold_py_max_upper xs x) as [Hx Hxs].
  intros p [->|Hp]%elem_of_cons; [done | by apply Hxs].
Qed.

Lemma predict_status_run {S} `{HasRow S} (s : S) model scaler le_time
    sleep driving caffeine rest age stress tod tod_enc confidence :
  row_fields (row_of s) sleep driving caffeine rest stress tod →
  row_of s !! "Age" = Some (VNum age) →
  le_transform le_time tod = Ret tod_enc →
  np_max (predict_proba model
            (scaled_features scaler sleep driving caffeine rest age stress
               tod_enc)) = Ret confidence →
  predict_status model scaler le_time s
  = (Ret (predict model
            (scaled_features scaler sleep driving caffeine rest age stress
               tod_enc),
          confidence,
          score_value sleep driving caffeine rest stress tod), s).
Proof.
  intros F Ha Ht Hc. pose proof F as [Hs Hd Hcf Hr Hst Htod].
  unfold predict_status.
  py_read Hs. py_read Hd. py_read Hcf. py_read Hr. py_read Ha.
  py_read Hst. py_read Htod.
  rewrite Ht, bind_lift_run. cbv beta zeta. cbn [to_float_array].
  cbn [mbind result_bind mret result_ret].
  rewrite bind_lift_run. cbv beta zeta.
  fold (scaled_features scaler sleep driving caffeine rest age stress tod_enc).
  rewrite Hc, bind_lift_run. cbv beta.
  unfold mbind at 1, Py_bind at 1.
  rewrite (weighted_fatigue_score_run s _ _ _ _ _ _ F). reflexivity.
Qed.

Lemma predict_status_encode_error {S} `{HasRow S} (s : S) model scaler le_time
    sleep driving caffeine rest age stress tod e :
  row_fields (row_of s) sleep driving caffeine rest stress tod →
  row_of s !! "Age" = Some (VNum age) →
  le_transform le_time tod = Exc e →
  predict_status model scaler le_time s = (Exc e, s).
Proof.
  intros [Hs Hd Hcf Hr Hst Htod] Ha Ht.
  unfold predict_status.
  py_read Hs. py_read Hd. py_read Hcf. py_read Hr. py_read Ha.
  py_read Hst. py_read Htod.
  by rewrite Ht.
Qed.

Lemma predict_status_proba_error {S} `{HasRow S} (s : S) model scaler le_time
    sleep driving caffeine rest age stress tod tod_enc e :
  row_fields (row_of s) sleep driving caffeine rest stress tod →
  row_of s !! "Age" = Some (VNum age) →
  le_transform le_time tod = Ret tod_enc →
  np_max (predict_proba model
            (scaled_features scaler sleep driving caffeine rest age stress
               tod_enc)) = Exc e →
  predict_status model scaler le_time s = (Exc e, s).
Proof.
  intros [Hs Hd Hcf Hr Hst Htod] Ha Ht Hc.
  unfold predict_status.
  py_read Hs. py_read Hd. py_read Hcf. py_read Hr. py_read Ha.
  py_read Hst. py_read Htod.
  rewrite Ht, bind_lift_run. cbv beta zeta. cbn [to_float_array].
  cbn [mbind result_bind mret result_ret].
  rewrite bind_lift_run. cbv beta zeta.
  fold (scaled_features scaler sleep driving caffeine rest age stress tod_enc).
  by rewrite Hc.
Qed.

Lemma predict_status_unseen {S} `{HasRow S} (s : S) model scaler le_time
    sleep driving caffeine rest age stress label :
  row_fields (row_of s) sleep driving caffeine rest stress (VStr label) →
  row_of s !! "Age" = Some (VNum age) →
  label ∉ classes_ le_time →
  predict_status model scaler le_time s = (Exc ValueError, s).
Proof.
  intros F Ha Hl. eapply predict_status_encode_error; [done | done |].
  by apply le_transform_unseen.
Qed.

(** Whenever [predict_status] returns, its third component is the score of
    the row, whatever classifier, scaler and encoder it was given. *)
Lemma predict_status_score {S} `{HasRow S} (s s' : S) model scaler le_time
    sleep driving caffeine rest age stress tod pred confidence score :
  row_fields (row_of s) sleep driving caffeine rest stress tod →
  row_of s !! "Age" = Some (VNum age) →
  predict_status model scaler le_time s = (Ret (pred, confidence, score), s') →
  score = score_value sleep driving caffeine rest stress tod ∧ s' = s.
Proof.
  intros F Ha E.
  destruct (le_transform le_time tod) as [enc|e] eqn:Ht.
  - destruct (np_max (predict_proba model
                (scaled_features scaler sleep driving caffeine rest age stress
                   enc))) as [c|e] eqn:Hc.
    + rewrite (predict_status_run s _ _ _ _ _ _ _ _ _ _ _ _ F Ha Ht Hc) in E.
      by injection E as _ _ -> ->.
    + by rewrite (predict_status_proba_error s _ _ _ _ _ _ _ _ _ _ _ _
                    F Ha Ht Hc) in E.
  - by rewrite (predict_status_encode_error s _ _ _ _ _ _ _ _ _ _ _
                  F Ha Ht) in E.
Qed.

(** ** Training returns, and what its encoder knows *)

Lemma insert_sorted_elem (s x : string) (l : list string) :
  x ∈ insert_sorted s l ↔ x = s ∨ x ∈ l.
Proof.
  induction l as [|y l IH]; cbn [insert_sorted].
  - rewrite elem_of_cons. reflexivity.
  - destruct (String.compare s y) eqn:C.
    + apply String.compare_eq_iff in C as ->.
      rewrite elem_of_cons. tauto.
    + rewrite elem_of_cons. reflexivity.
    + rewrite !elem_of_cons, IH. tauto.
Qed.

Lemma sorted_unique_elem (x : string) (y : list string) :
  x ∈ sorted_unique y ↔ x ∈ y.
Proof.
  unfold sorted_unique. induction y as [|s y IH]; cbn [foldr]; [done|].
  rewrite insert_sorted_elem, IH, elem_of_cons. reflexivity.
Qed.

Lemma result_map_fmap {A B C} (f : B → result C) (g : A → B) (h : A → C)
    (l : list A) :
  (∀ a, a ∈ l → f (g a) = Ret (h a)) →
  result_map f (g <$> l) = Ret (h <$> l).
Proof.
  induction l as [|a l IH]; intros Hf; [done|].
  cbn [fmap list_fmap result_map]. fold (fmap (M := list) g l).
  rewrite (Hf a) by apply list_elem_of_here.
  rewrite IH by (intros; apply Hf; by apply list_elem_of_further).
  reflexivity.
Qed.

Lemma labelled_row_time (x : sample) :
  labelled_row x !! "Time_of_Day" = Some (VStr (sample_label x)).
Proof. reflexivity. Qed.

Lemma labelled_row_status (x : sample) :
  labelled_row x !! "Driver_Status"
  = Some (VStr (driver_status (sample_score x))).
Proof. reflexivity. Qed.

Lemma encoded_row_features (le : LabelEncoder) (x : sample) :
  row_select feature_columns
    (<["Time_of_Day_enc" := VNum (sample_enc le x)]> (labelled_row x))
    ≫= to_float_array
  = Ret (sample_features le x).
Proof. reflexivity. Qed.

(** [train_model] returns for every table of draws: the classifier is
    fitted on the scaled features and the threshold labels, and the
    encoder on the times of day that occur in the draws. *)
Lemma train_model_returns fit_scaler fit_forest (draws : list sample) :
  train_model fit_scaler fit_forest draws
  = Ret (fit_forest
           (scaler_transform (fit_scaler (training_features draws))
              <$> training_features draws)
           (training_labels draws),
         fit_scaler (training_features draws),
         le_fit (sample_label <$> draws)).
Proof.
  unfold training_features, training_labels.
  set (le := le_fit (sample_label <$> draws)).
  set (X := sample_features le <$> draws).
  unfold train_model. rewrite labelled_frame_rows. cbn [mbind result_bind].
  rewrite (df_getcol_fmap _ _ (VStr ∘ sample_label))
    by apply labelled_row_time.
  cbn [mbind result_bind].
  rewrite list_fmap_compose.
  rewrite (result_map_fmap value_str VStr id) by done.
  cbn [mbind result_bind]. rewrite list_fmap_id. fold le.
  rewrite <- list_fmap_compose.
  assert (Henc : ∀ a, a ∈ draws →
            le_transform le ((VStr ∘ sample_label) a) = Ret (sample_enc le a)).
  { intros a Ha. unfold le_transform, sample_enc, compose.
    assert (Hin : sample_label a ∈ classes_ le).
    { apply sorted_unique_elem, list_elem_of_fmap. eauto. }
    apply index_of_elem in Hin as (i & -> & _). reflexivity. }
  rewrite (result_map_fmap _ _ _ _ Henc). cbn [mbind result_bind].
  rewrite <- list_fmap_compose, df_setcol_fmap.
  rewrite (result_map_fmap _ _ (sample_features le))
    by (intros; apply encoded_row_features).
  cbn [mbind result_bind]. fold X.
  rewrite (df_getcol_fmap _ _ (VStr ∘ driver_status ∘ sample_score))
    by (intros x; rewrite lookup_insert_ne by discriminate;
        apply labelled_row_status).
  cbn [mbind result_bind].
  rewrite (list_fmap_compose (driver_status ∘ sample_score) VStr).
  rewrite (result_map_fmap value_str VStr id) by done.
  cbn [mbind result_bind]. rewrite list_fmap_id. reflexivity.
Qed.

(** Whatever was drawn, the encoder knows no label but the three choices. *)
Lemma trained_encoder_classes (draws : list sample) (label : string) :
  label ∈ classes_ (le_fit (sample_label <$> draws)) →
  label = "Morning" ∨ label = "Afternoon" ∨ label = "Night".
Proof.
  intros (x & -> & _)%sorted_unique_elem%list_elem_of_fmap.
  unfold sample_label. destruct (draw_time x); auto.
Qed.

(** C4.  In [train_model] every synthetic row gets the label "Fatigued"
    exactly when its [weighted_fatigue_score] is at least 5 and "Alert"
    otherwise; no other label occurs, and these labels are the ones the
    classifier is fitted on. *)
Theorem training_label_threshold fit_scaler fit_forest
    (draws : list sample) (i : nat) (x : sample) :
  draws !! i = Some x →
  ∃ df row score label,
    labelled_frame draws = Ret df
    ∧ length df = length draws
    ∧ generate_synthetic_data draws !! i = Some (sample_row x)
    ∧ df !! i = Some row
    ∧ weighted_fatigue_score (sample_row x) = (Ret score, sample_row x)
    ∧ row !! "Fatigue_Score" = Some (VNum score)
    ∧ row !! "Driver_Status" = Some (VStr label)
    ∧ (label = "Fatigued" ↔ 5 <= score)
    ∧ (label = "Alert" ↔ score < 5)
    ∧ (label = "Fatigued" ∨ label = "Alert")
    ∧ train_model fit_scaler fit_forest draws
      = Ret (fit_forest
               (scaler_transform (fit_scaler (training_features draws))
                  <$> training_features draws)
               (training_labels draws),
             fit_scaler (training_features draws),
             le_fit (sample_label <$> draws))
    ∧ training_labels draws !! i = Some label.
Proof.
  intros Hi.
  exists (labelled_row <$> draws), (labelled_row x), (sample_score x),
    (driver_status (sample_score x)).
  split; [apply labelled_frame_rows|].
  split; [apply length_fmap|].
  split; [unfold generate_synthetic_data; by rewrite list_lookup_fmap, Hi|].
  split; [by rewrite list_lookup_fmap, Hi|].
  split; [apply sample_row_score|].
  split; [unfold labelled_row; by simplify_map_eq|].
  split; [apply labelled_row_status|].
  split; [apply driver_status_fatigued|].
  split; [apply driver_status_alert|].
  split; [apply driver_status_cases|].
  split; [apply train_model_returns|].
  unfold training_labels. by rewrite list_lookup_fmap, Hi.
Qed.

Lemma training_label_threshold_witness :
  three_draws !! 0%nat = Some tired_sample
  ∧ ∃ df row score label,
      labelled_frame three_draws = Ret df
      ∧ length df = length three_draws
      ∧ generate_synthetic_data three_draws !! 0%nat
        = Some (sample_row tired_sample)
      ∧ df !! 0%nat = Some row
      ∧ weighted_fatigue_score (sample_row tired_sample)
        = (Ret score, sample_row tired_sample)
      ∧ row !! "Fatigue_Score" = Some (VNum score)
      ∧ row !! "Driver_Status" = Some (VStr label)
      ∧ (label = "Fatigued" ↔ 5 <= score)
      ∧ (label = "Alert" ↔ score < 5)
      ∧ (label = "Fatigued" ∨ label = "Alert")
      ∧ train_model fit_plain_scaler fit_stump three_draws
        = Ret (fit_stump
                 (scaler_transform
                    (fit_plain_scaler (training_features three_draws))
                  <$> training_features three_draws)
                 (training_labels three_draws),
               fit_plain_scaler (training_features three_draws),
               le_fit (sample_label <$> three_draws))
      ∧ training_labels three_draws !! 0%nat = Some label.
Proof.
  split.
  - reflexivity.
  - exact (training_label_threshold fit_plain_scaler fit_stump three_draws 0
             tired_sample eq_refl).
Defined.

Lemma stump_proba_valid : proba_valid stump.
Proof.
  intros X. cbn [predict_proba stump].
  destruct (X !! 1%nat) as [d|]; [destruct (py_gt d 8)|]; (split; [done|]);
    intros p Hp; repeat (apply elem_of_cons in Hp as [->|Hp]);
    try (by apply elem_of_nil in Hp); split; discriminate.
Qed.

Lemma night_seen : "Night" ∈ classes_ three_class_encoder.
Proof. apply sorted_unique_elem. cbn. repeat constructor. Qed.

Lemma night_row_age : night_row !! "Age" = Some (VNum 35).
Proof. reflexivity. Defined.

(** On a row with numeric fields whose Time_of_Day the encoder knows,
    [predict_status] returns a triple (label, confidence, score) and leaves
    the row as it was: the score is what [weighted_fatigue_score] returns
    on that row, the label is the classifier's prediction for the scaled
    features, and the confidence is the largest of the classifier's class
    probabilities for them, hence between 0 and 1. *)
Lemma predict_status_triple_on_row {S} `{HasRow S} (s : S) model scaler le_time
    sleep driving caffeine rest age stress label :
  row_fields (row_of s) sleep driving caffeine rest stress (VStr label) →
  row_of s !! "Age" = Some (VNum age) →
  label ∈ classes_ le_time →
  proba_valid model →
  ∃ pred confidence score tod_enc,
    predict_status model scaler le_time s = (Ret (pred, confidence, score), s)
    ∧ weighted_fatigue_score s = (Ret score, s)
    ∧ le_transform le_time (VStr label) = Ret tod_enc
    ∧ pred = predict model
               (scaled_features scaler sleep driving caffeine rest age stress
                  tod_enc)
    ∧ confidence ∈ predict_proba model
                     (scaled_features scaler sleep driving caffeine rest age
                        stress tod_enc)
    ∧ (∀ p, p ∈ predict_proba model
                  (scaled_features scaler sleep driving caffeine rest age
                     stress tod_enc) → p <= confidence)
    ∧ 0 <= confidence ∧ confidence <= 1
    ∧ (∀ model' scaler' le_time' pred' confidence' score' s',
         predict_status model' scaler' le_time' s
         = (Ret (pred', confidence', score'), s') → score' = score).
Proof.
  intros F Ha Hl Hp.
  destruct (le_transform_seen _ _ Hl) as (i & Ht & _).
  set (enc := inject_Z (Z.of_nat i)) in *.
  set (X := scaled_features scaler sleep driving caffeine rest age stress enc).
  destruct (Hp X) as [Hne Hrange].
  destruct (np_max_spec _ Hne) as (c & Hc & Hin & Hmax).
  exists (predict model X), c,
    (score_value sleep driving caffeine rest stress (VStr label)), enc.
  split; [by apply (predict_status_run s _ _ _ _ _ _ _ _ _ _ _ _ F Ha Ht)|].
  split; [by apply weighted_fatigue_score_run|].
  destruct (Hrange c Hin).
  do 6 (split; [done|]).
  intros m' sc' le' p' c' q' s' E.
  by destruct (predict_status_score _ _ _ _ _ _ _ _ _ _ _ _ _ _ _ F Ha E).
Qed.

(** After training on draws in which all three times of day occur,
    [predict_status] on a row whose Time_of_Day is "Evening", a value the
    form's select box does not offer, raises [ValueError]. *)
Lemma predict_status_unseen_label_raises :
  ∃ model scaler le_time,
    train_model fit_plain_scaler fit_stump three_draws
    = Ret (model, scaler, le_time)
    ∧ row_fields evening_row 5 9 0 10 8 (VStr "Evening")
    ∧ evening_row !! "Age" = Some (VNum 35)
    ∧ predict_status model scaler le_time evening_row
      = (Exc ValueError, evening_row).
Proof.
  do 3 eexists. split; [vm_compute; reflexivity|].
  split; [constructor; reflexivity|].
  split; [reflexivity|].
  vm_compute. reflexivity.
Qed.

(** Whatever the draws and the fitting procedures, the trained encoder
    rejects a time of day outside the three choices. *)
Lemma trained_predict_rejects_other_label fit_scaler fit_forest draws
    model scaler le_time {S} `{HasRow S} (s : S)
    sleep driving caffeine rest age stress label :
  train_model fit_scaler fit_forest draws = Ret (model, scaler, le_time) →
  row_fields (row_of s) sleep driving caffeine rest stress (VStr label) →
  row_of s !! "Age" = Some (VNum age) →
  label ≠ "Morning" → label ≠ "Afternoon" → label ≠ "Night" →
  predict_status model scaler le_time s = (Exc ValueError, s).
Proof.
  intros Ht F Ha H1 H2 H3.
  rewrite train_model_returns in Ht. injection Ht as <- <- <-.
  eapply predict_status_unseen; [done | done |].
  intros [?|[?|?]]%trained_encoder_classes; done.
Qed.

(** ** The session record table *)

Lemma form_input_fields (f : form) :
  row_fields (form_input_data f) (sleep f) (driving f) (caffeine f) (rest f)
    (inject_Z (stress f)) (VStr (time_label (tod f))).
Proof. constructor; reflexivity. Qed.

Lemma form_input_age (f : form) :
  form_input_data f !! "Age" = Some (VNum (inject_Z (age f))).
Proof. reflexivity. Qed.

Lemma form_input_dom (f : form) :
  dom (form_input_data f) = list_to_set input_columns.
Proof.
  unfold form_input_data, input_columns. rewrite !dom_insert_L, dom_empty_L.
  cbn [list_to_set]. reflexivity.
Qed.

(** C8.  Submitting an assessment appends exactly one record at the end of
    the session's record table: the record holds the submitted input
    fields together with Timestamp, Fatigue_Score, Prediction and
    Confidence, every record stored before is where and what it was, and
    no file is written.  The estimators are those [train_model] returned;
    the chosen time of day occurs among the training draws and the
    classifier reports at least one class probability. *)
Theorem submit_appends_one_record fit_scaler fit_forest (draws : list sample)
    model scaler le_time now (f : form) (w : world) :
  train_model fit_scaler fit_forest draws = Ret (model, scaler, le_time) →
  tod f ∈ draw_time <$> draws →
  (∀ X, predict_proba model X ≠ []) →
  ∃ record pred conf score,
    add_driver_submit model scaler le_time now f w
    = (Ret tt, {| driver_records := driver_records w ++ [record];
                  files := files w |})
    ∧ predict_status model scaler le_time (form_input_data f)
      = (Ret (pred, conf, score), form_input_data f)
    ∧ (∀ key v, form_input_data f !! key = Some v → record !! key = Some v)
    ∧ record !! "Timestamp" = Some (VStr now)
    ∧ record !! "Fatigue_Score" = Some (VNum score)
    ∧ record !! "Prediction" = Some (VStr pred)
    ∧ record !! "Confidence" = Some (VNum conf)
    ∧ dom record
      = list_to_set (input_columns
                     ++ ["Timestamp"; "Fatigue_Score"; "Prediction";
                         "Confidence"])
    ∧ length (driver_records w ++ [record])%list = S (length (driver_records w))
    ∧ (driver_records w ++ [record])%list !! length (driver_records w)
      = Some record
    ∧ (∀ i old, driver_records w !! i = Some old →
                (driver_records w ++ [record])%list !! i = Some old).
Proof.
  intros Htrain Hdrawn Hne.
  assert (Hl : time_label (tod f) ∈ classes_ le_time).
  { rewrite train_model_returns in Htrain. injection Htrain as _ _ <-.
    apply sorted_unique_elem.
    apply list_elem_of_fmap in Hdrawn as (x & -> & Hx).
    apply list_elem_of_fmap. by exists x. }
  destruct (le_transform_seen _ _ Hl) as (i & Ht & _).
  set (enc := inject_Z (Z.of_nat i)) in *.
  set (X := scaled_features scaler (sleep f) (driving f) (caffeine f) (rest f)
              (inject_Z (age f)) (inject_Z (stress f)) enc).
  destruct (np_max_spec _ (Hne X)) as (c & Hc & _ & _).
  set (score := score_value (sleep f) (driving f) (caffeine f) (rest f)
                  (inject_Z (stress f)) (VStr (time_label (tod f)))).
  exists (<["Confidence" := VNum c]>
          (<["Prediction" := VStr (predict model X)]>
          (<["Fatigue_Score" := VNum score]>
          (<["Timestamp" := VStr now]> (form_input_data f))))),
    (predict model X), c, score.
  split.
  { unfold add_driver_submit, with_row, mbind at 1, Py_bind at 1.
    rewrite (predict_status_run (form_input_data f, w) _ _ _ _ _ _ _ _ _ _ _ _
               (form_input_fields f) (form_input_age f) Ht Hc).
    reflexivity. }
  split.
  { apply (predict_status_run (form_input_data f) _ _ _ _ _ _ _ _ _ _ _ _
             (form_input_fields f) (form_input_age f) Ht Hc). }
  split.
  { intros key v Hk.
    assert (Hdom : key ∈ dom (form_input_data f)) by (apply elem_of_dom; eauto).
    rewrite form_input_dom in Hdom.
    rewrite !lookup_insert_ne; [done|..];
      intros <-; cbn in Hdom; set_solver. }
  split; [by simplify_map_eq|].
  split; [by simplify_map_eq|].
  split; [by simplify_map_eq|].
  split; [by simplify_map_eq|].
  split.
  { rewrite !dom_insert_L, form_input_dom. cbn. set_solver. }
  split; [rewrite length_app; cbn; lia|].
  split.
  { rewrite lookup_app_r by lia. by rewrite Nat.sub_diag. }
  intros j old Hj. by apply lookup_app_l_Some.
Qed.

Lemma stump_proba_nonempty : ∀ X, predict_proba stump X ≠ [].
Proof. intros X. apply stump_proba_valid. Qed.

Lemma three_draws_trained :
  train_model fit_plain_scaler fit_stump three_draws
  = Ret (stump, fit_plain_scaler [], three_class_encoder).
Proof. apply train_model_returns. Qed.

Lemma night_drawn : tod night_form ∈ draw_time <$> three_draws.
Proof. apply list_elem_of_here. Qed.

Lemma submit_appends_one_record_witness :
  train_model fit_plain_scaler fit_stump three_draws
  = Ret (stump, fit_plain_scaler [], three_class_encoder)
  ∧ tod night_form ∈ draw_time <$> three_draws
  ∧ (∀ X, predict_proba stump X ≠ [])
  ∧ ∃ record pred conf score,
      add_driver_submit stump (fit_plain_scaler []) three_class_encoder
        "2024-05-01 10:30:00" night_form one_record_world
      = (Ret tt,
         {| driver_records := driver_records one_record_world ++ [record];
            files := files one_record_world |})
      ∧ predict_status stump (fit_plain_scaler []) three_class_encoder
          (form_input_data night_form)
        = (Ret (pred, conf, score), form_input_data night_form)
      ∧ (∀ key v, form_input_data night_form !! key = Some v →
                  record !! key = Some v)
      ∧ record !! "Timestamp" = Some (VStr "2024-05-01 10:30:00")
      ∧ record !! "Fatigue_Score" = Some (VNum score)
      ∧ record !! "Prediction" = Some (VStr pred)
      ∧ record !! "Confidence" = Some (VNum conf)
      ∧ dom record
        = list_to_set (input_columns
                       ++ ["Timestamp"; "Fatigue_Score"; "Prediction";
                           "Confidence"])
      ∧ length (driver_records one_record_world ++ [record])%list
        = S (length (driver_records one_record_world))
      ∧ (driver_records one_record_world ++ [record])%list
          !! length (driver_records one_record_world)
        = Some record
      ∧ (∀ i old, driver_records one_record_world !! i = Some old →
                  (driver_records one_record_world ++ [record])%list !! i
                  = Some old).
Proof.
  split; [exact three_draws_trained|].
  split; [exact night_drawn|].
  split; [exact stump_proba_nonempty|].
  exact (submit_appends_one_record fit_plain_scaler fit_stump three_draws
           stump (fit_plain_scaler []) three_class_encoder
           "2024-05-01 10:30:00" night_form one_record_world
           three_draws_trained night_drawn stump_proba_nonempty).
Defined.

(** ** The prediction for a submitted form *)

(** C5.  For every input row the form supplies, [predict_status] returns a
    triple (label, confidence, score) and leaves the row as it was: the
    score is what [weighted_fatigue_score] returns on that exact row,
    whatever classifier is used; the label is the classifier's prediction
    and the confidence the largest of the classifier's class probabilities
    for the scaled features of the row, hence between 0 and 1.  The
    estimators are those [train_model] returned; the chosen time of day
    occurs among the training draws and the classifier reports
    probabilities (at least one, each between 0 and 1). *)
Theorem predict_status_triple fit_scaler fit_forest (draws : list sample)
    model scaler le_time (f : form) :
  train_model fit_scaler fit_forest draws = Ret (model, scaler, le_time) →
  tod f ∈ draw_time <$> draws →
  proba_valid model →
  ∃ pred confidence score tod_enc,
    predict_status model scaler le_time (form_input_data f)
    = (Ret (pred, confidence, score), form_input_data f)
    ∧ weighted_fatigue_score (form_input_data f)
      = (Ret score, form_input_data f)
    ∧ le_transform le_time (VStr (time_label (tod f))) = Ret tod_enc
    ∧ pred = predict model
               (scaled_features scaler (sleep f) (driving f) (caffeine f)
                  (rest f) (inject_Z (age f)) (inject_Z (stress f)) tod_enc)
    ∧ confidence ∈ predict_proba model
                     (scaled_features scaler (sleep f) (driving f)
                        (caffeine f) (rest f) (inject_Z (age f))
                        (inject_Z (stress f)) tod_enc)
    ∧ (∀ p, p ∈ predict_proba model
                  (scaled_features scaler (sleep f) (driving f) (caffeine f)
                     (rest f) (inject_Z (age f)) (inject_Z (stress f))
                     tod_enc) → p <= confidence)
    ∧ 0 <= confidence ∧ confidence <= 1
    ∧ (∀ model' scaler' le_time' pred' confidence' score' s',
         predict_status model' scaler' le_time' (form_input_data f)
         = (Ret (pred', confidence', score'), s') → score' = score).
Proof.
  intros Htrain Hdrawn Hp.
  assert (Hl : time_label (tod f) ∈ classes_ le_time).
  { rewrite train_model_returns in Htrain. injection Htrain as _ _ <-.
    apply sorted_unique_elem.
    apply list_elem_of_fmap in Hdrawn as (x & -> & Hx).
    apply list_elem_of_fmap. by exists x. }
  exact (predict_status_triple_on_row (form_input_data f) model scaler
           le_time (sleep f) (driving f) (caffeine f) (rest f)
           (inject_Z (age f)) (inject_Z (stress f)) (time_label (tod f))
           (form_input_fields f) (form_input_age f) Hl Hp).
Qed.

Lemma predict_status_triple_witness :
  train_model fit_plain_scaler fit_stump three_draws
  = Ret (stump, fit_plain_scaler [], three_class_encoder)
  ∧ tod night_form ∈ draw_time <$> three_draws
  ∧ proba_valid stump
  ∧ ∃ pred confidence score tod_enc,
      predict_status stump (fit_plain_scaler []) three_class_encoder
        (form_input_data night_form)
      = (Ret (pred, confidence, score), form_input_data night_form)
      ∧ weighted_fatigue_score (form_input_data night_form)
        = (Ret score, form_input_data night_form)
      ∧ le_transform three_class_encoder
          (VStr (time_label (tod night_form))) = Ret tod_enc
      ∧ pred = predict stump
                 (scaled_features (fit_plain_scaler []) (sleep night_form)
                    (driving night_form) (caffeine night_form)
                    (rest night_form) (inject_Z (age night_form))
                    (inject_Z (stress night_form)) tod_enc)
      ∧ confidence ∈ predict_proba stump
                       (scaled_features (fit_plain_scaler [])
                          (sleep night_form) (driving night_form)
                          (caffeine night_form) (rest night_form)
                          (inject_Z (age night_form))
                          (inject_Z (stress night_form)) tod_enc)
      ∧ (∀ p, p ∈ predict_proba stump
                    (scaled_features (fit_plain_scaler [])
                       (sleep night_form) (driving night_form)
                       (caffeine night_form) (rest night_form)
                       (inject_Z (age night_form))
                       (inject_Z (stress night_form)) tod_enc)
              → p <= confidence)
      ∧ 0 <= confidence ∧ confidence <= 1
      ∧ (∀ model' scaler' le_time' pred' confidence' score' s',
           predict_status model' scaler' le_time' (form_input_data night_form)
           = (Ret (pred', confidence', score'), s') → score' = score).
Proof.
  split; [exact three_draws_trained|].
  split; [exact night_drawn|].
  split; [exact stump_proba_valid|].
  exact (predict_status_triple fit_plain_scaler fit_stump three_draws
           stump (fit_plain_scaler []) three_class_encoder night_form
           three_draws_trained night_drawn stump_proba_valid).
Defined.

(** * Further properties of the code *)

(** ** When the score is returned, and on what it depends *)

Lemma bind_getitem_none {S B} `{HasRow S} key (f : value → Py S B) (s : S) :
  row_of s !! key = None → (getitem key ≫= f) s = (Exc (KeyError key), s).
Proof. intros E. unfold mbind, Py_bind, getitem. by rewrite E. Qed.

Lemma bind_getnum_none {S B} `{HasRow S} key (f : Q → Py S B) (s : S) :
  row_of s !! key = None → (getnum key ≫= f) s = (Exc (KeyError key), s).
Proof. intros E. unfold getnum, mbind, Py_bind, getitem. by rewrite E. Qed.

Lemma bind_getnum_str {S B} `{HasRow S} key t (f : Q → Py S B) (s : S) :
  row_of s !! key = Some (VStr t) → (getnum key ≫= f) s = (Exc TypeError, s).
Proof. intros E. unfold getnum, mbind, Py_bind, getitem. by rewrite E. Qed.

(** Symbolic execution of the next numeric read inside hypothesis [H], which
    says the run returned: the column is there and holds a number. *)
Ltac py_read_num_in H s key E :=
  cbv beta zeta in H;
  let v := fresh "v" in
  destruct (row_of s !! key) as [[v|v]|] eqn:E;
  [ rewrite (bind_getnum_run _ _ _ _ E) in H; cbv beta zeta in H
  | rewrite (bind_getnum_str _ _ _ _ E) in H; discriminate H
  | rewrite (bind_getnum_none _ _ _ E) in H; discriminate H ].

Ltac py_read_item_in H s key E :=
  cbv beta zeta in H;
  let v := fresh "v" in
  destruct (row_of s !! key) as [v|] eqn:E;
  [ rewrite (bind_getitem_run _ _ _ _ E) in H; cbv beta zeta in H
  | rewrite (bind_getitem_none _ _ _ E) in H; discriminate H ].

(** X1.  [weighted_fatigue_score] returns a score exactly on the rows that
    hold a number in Sleep_Hours, Driving_Hours, Caffeine_Cups, Rest_Breaks
    and Stress_Level and anything in Time_of_Day; on every other row it
    raises. *)
Theorem score_returns_iff {S} `{HasRow S} (s : S) :
  (∃ score, fst (weighted_fatigue_score s) = Ret score)
  ↔ ∃ sleep driving caffeine rest stress tod,
      row_fields (row_of s) sleep driving caffeine rest stress tod.
Proof.
  split.
  - intros [score E]. unfold weighted_fatigue_score in E.
    py_read_num_in E s "Sleep_Hours" Hs.
    py_read_num_in E s "Driving_Hours" Hd.
    py_read_num_in E s "Caffeine_Cups" Hc.
    py_read_num_in E s "Rest_Breaks" Hr.
    py_read_num_in E s "Stress_Level" Hst.
    destruct (row_of s !! "Time_of_Day") as [tod|] eqn:Ht.
    + by eexists _, _, _, _, _, tod.
    + exfalso. destruct (py_gt _ 5).
      * rewrite bind_assoc_run, (bind_getnum_run _ _ _ _ Hst) in E.
        cbv beta in E. rewrite bind_ret_run in E. cbv beta zeta in E.
        by rewrite (bind_getitem_none _ _ _ Ht) in E.
      * rewrite bind_ret_run in E. cbv beta zeta in E.
        by rewrite (bind_getitem_none _ _ _ Ht) in E.
  - intros (sleep & driving & caffeine & rest & stress & tod & F).
    eexists. by rewrite (weighted_fatigue_score_run s _ _ _ _ _ _ F).
Qed.

Lemma agree_outcome_getitem {S1 S2} `{HasRow S1} `{HasRow S2} cols key
    (s1 : S1) (s2 : S2) :
  key ∈ cols → agree_on cols (row_of s1) (row_of s2) →
  fst (getitem key s1) = fst (getitem key s2).
Proof.
  intros Hk Ha. unfold getitem. rewrite (Ha key Hk).
  by destruct (row_of s2 !! key).
Qed.

Lemma agree_outcome_bind {S1 S2 A B} `{HasRow S1} `{HasRow S2}
    (m1 : Py S1 A) (m2 : Py S2 A) (f1 : A → Py S1 B) (f2 : A → Py S2 B)
    (s1 : S1) (s2 : S2) :
  read_only m1 → read_only m2 →
  fst (m1 s1) = fst (m2 s2) →
  (∀ x, fst (f1 x s1) = fst (f2 x s2)) →
  fst ((m1 ≫= f1) s1) = fst ((m2 ≫= f2) s2).
Proof.
  intros R1 R2 Hm Hf. unfold mbind, Py_bind.
  specialize (R1 s1). specialize (R2 s2).
  destruct (m1 s1) as [r1 s1'], (m2 s2) as [r2 s2']; simpl in *; subst.
  destruct r2; [apply Hf | done].
Qed.

Lemma agree_outcome_getnum {S1 S2} `{HasRow S1} `{HasRow S2} cols key
    (s1 : S1) (s2 : S2) :
  key ∈ cols → agree_on cols (row_of s1) (row_of s2) →
  fst (getnum key s1) = fst (getnum key s2).
Proof.
  intros Hk Ha. apply agree_outcome_bind; auto with py_ro.
  - by apply (agree_outcome_getitem cols).
  - by intros [q|t].
Qed.

Ltac score_column :=
  unfold score_columns;
  repeat first [apply list_elem_of_here | apply list_elem_of_further].

(** X2.  The score depends on the six columns the formula reads and on
    nothing else: two rows that agree on them (whatever they hold in Age,
    Name or any other column, and whatever the rest of the program state)
    have the same outcome, be it a score or an exception. *)
Theorem score_reads_six_columns {S1 S2} `{HasRow S1} `{HasRow S2}
    (s1 : S1) (s2 : S2) :
  agree_on score_columns (row_of s1) (row_of s2) →
  fst (weighted_fatigue_score s1) = fst (weighted_fatigue_score s2).
Proof.
  intros Ha. unfold weighted_fatigue_score.
  do 5 (apply agree_outcome_bind;
        [auto with py_ro | auto with py_ro
        | apply (agree_outcome_getnum score_columns); [score_column | done]
        | intros ?]).
  apply agree_outcome_bind.
  - destruct (py_gt _ 5); read_only_steps.
  - destruct (py_gt _ 5); read_only_steps.
  - destruct (py_gt _ 5); [|done].
    apply agree_outcome_bind; auto with py_ro.
    apply (agree_outcome_getnum score_columns); [score_column | done].
  - intros ?. apply agree_outcome_bind; auto with py_ro.
    apply (agree_outcome_getitem score_columns); [score_column | done].
Qed.

Lemma agree_on_other_column cols key v (row : gmap string value) :
  key ∉ cols → agree_on cols (<[key := v]> row) row.
Proof.
  intros Hk k Hin. apply lookup_insert_ne. by intros ->.
Qed.

Lemma age_not_score_column : "Age" ∉ score_columns.
Proof.
  unfold score_columns. intros Hin.
  repeat (apply elem_of_cons in Hin as [Hin|Hin]; [discriminate|]).
  by apply elem_of_nil in Hin.
Qed.

Lemma score_reads_six_columns_witness :
  agree_on score_columns
    (row_of (<["Age" := VNum 61]> night_row, 3%nat)) (row_of night_row)
  ∧ fst (weighted_fatigue_score (<["Age" := VNum 61]> night_row, 3%nat))
    = fst (weighted_fatigue_score night_row).
Proof.
  split.
  - exact (agree_on_other_column score_columns "Age" (VNum 61) night_row
             age_not_score_column).
  - exact (score_reads_six_columns (<["Age" := VNum 61]> night_row, 3%nat)
             night_row
             (agree_on_other_column score_columns "Age" (VNum 61) night_row
                age_not_score_column)).
Defined.

(** ** The range of the score *)

(** X3.  The score is 0 exactly for a driver with at least 8 hours of
    sleep, at most 6 hours of driving, at least 2 cups of caffeine, at
    least 20 minutes of rest, stress at most 5 and a time of day other
    than "Night"; every other row scores above 0. *)
Theorem score_zero_iff {S} `{HasRow S} (s : S)
    sleep driving caffeine rest stress tod :
  row_fields (row_of s) sleep driving caffeine rest stress tod →
  ∃ score, weighted_fatigue_score s = (Ret score, s)
    ∧ (score == 0 ↔
         8 <= sleep ∧ driving <= 6 ∧ 2 <= caffeine ∧ 20 <= rest
         ∧ stress <= 5 ∧ py_eq_str tod "Night" = false)
    ∧ (¬ score == 0 → 0 < score).
Proof.
  intros F. eexists.
  split; [apply (weighted_fatigue_score_run _ _ _ _ _ _ _ F)|].
  unfold score_value, py_max. cbv zeta.
  split.
  - destruct (py_eq_str tod "Night"); py_cases;
      (split; [intros ?; repeat split; (lra || done)
              | intros (? & ? & ? & ? & ? & ?); (lra || done)]).
  - destruct (py_eq_str tod "Night"); py_cases; intros ?; lra.
Qed.

Lemma score_zero_iff_witness :
  row_fields night_row 5 9 0 10 8 (VStr "Night")
  ∧ ∃ score, weighted_fatigue_score night_row = (Ret score, night_row)
      ∧ (score == 0 ↔
           8 <= 5 ∧ 9 <= 6 ∧ 2 <= 0 ∧ 20 <= 10
           ∧ 8 <= 5 ∧ py_eq_str (VStr "Night") "Night" = false)
      ∧ (¬ score == 0 → 0 < score).
Proof.
  split.
  - exact night_row_fields.
  - exact (score_zero_iff night_row 5 9 0 10 8 (VStr "Night")
             night_row_fields).
Defined.

Lemma row_fields_set_caffeine row sleep driving caffeine rest stress tod x :
  row_fields row sleep driving caffeine rest stress tod →
  row_fields (<["Caffeine_Cups" := VNum x]> row)
             sleep driving x rest stress tod.
Proof. intros [? ? ? ? ? ?]. constructor; by simplify_map_eq. Qed.

Lemma row_fields_set_rest row sleep driving caffeine rest stress tod x :
  row_fields row sleep driving caffeine rest stress tod →
  row_fields (<["Rest_Breaks" := VNum x]> row)
             sleep driving caffeine x stress tod.
Proof. intros [? ? ? ? ? ?]. constructor; by simplify_map_eq. Qed.

Lemma row_fields_set_stress row sleep driving caffeine rest stress tod x :
  row_fields row sleep driving caffeine rest stress tod →
  row_fields (<["Stress_Level" := VNum x]> row)
             sleep driving caffeine rest x tod.
Proof. intros [? ? ? ? ? ?]. constructor; by simplify_map_eq. Qed.

Lemma py_max_zero_left (x : Q) : x <= 0 → py_max 0 x = 0.
Proof.
  intros Hx. unfold py_max.
  by rewrite (proj2 (py_gt_false x 0) Hx).
Qed.

Lemma score_set_driving row sleep driving caffeine rest stress tod d :
  row_fields row sleep driving caffeine rest stress tod →
  fst (weighted_fatigue_score (<["Driving_Hours" := VNum d]> row))
  = Ret (score_value sleep d caffeine rest stress tod).
Proof.
  intros F.
  erewrite weighted_fatigue_score_run;
    [reflexivity | by eapply row_fields_set_driving].
Qed.

Lemma score_set_sleep row sleep driving caffeine rest stress tod x :
  row_fields row sleep driving caffeine rest stress tod →
  fst (weighted_fatigue_score (<["Sleep_Hours" := VNum x]> row))
  = Ret (score_value x driving caffeine rest stress tod).
Proof.
  intros F.
  erewrite weighted_fatigue_score_run;
    [reflexivity | by eapply row_fields_set_sleep].
Qed.

Lemma score_set_caffeine row sleep driving caffeine rest stress tod x :
  row_fields row sleep driving caffeine rest stress tod →
  fst (weighted_fatigue_score (<["Caffeine_Cups" := VNum x]> row))
  = Ret (score_value sleep driving x rest stress tod).
Proof.
  intros F.
  erewrite weighted_fatigue_score_run;
    [reflexivity | by eapply row_fields_set_caffeine].
Qed.

Lemma score_set_rest row sleep driving caffeine rest stress tod x :
  row_fields row sleep driving caffeine rest stress tod →
  fst (weighted_fatigue_score (<["Rest_Breaks" := VNum x]> row))
  = Ret (score_value sleep driving caffeine x stress tod).
Proof.
  intros F.
  erewrite weighted_fatigue_score_run;
    [reflexivity | by eapply row_fields_set_rest].
Qed.

Lemma score_set_stress row sleep driving caffeine rest stress tod x :
  row_fields row sleep driving caffeine rest stress tod →
  fst (weighted_fatigue_score (<["Stress_Level" := VNum x]> row))
  = Ret (score_value sleep driving caffeine rest x tod).
Proof.
  intros F.
  erewrite weighted_fatigue_score_run;
    [reflexivity | by eapply row_fields_set_stress].
Qed.

(** X4.  The formula has flat zones and no ceiling.  With the other fields
    fixed, the score is the same for any two values of Driving_Hours up
    to 6, of Sleep_Hours from 8 on, of Caffeine_Cups from 2 on (and for
    any two below 2), of Rest_Breaks from 20 on and of Stress_Level up to
    5; and for every bound some non-negative Driving_Hours gives a score
    above it. *)
Theorem score_flat_zones_no_ceiling (row : gmap string value)
    sleep driving caffeine rest stress tod :
  row_fields row sleep driving caffeine rest stress tod →
  (∀ d1 d2, d1 <= 6 → d2 <= 6 →
     fst (weighted_fatigue_score (<["Driving_Hours" := VNum d1]> row))
     = fst (weighted_fatigue_score (<["Driving_Hours" := VNum d2]> row)))
  ∧ (∀ s1 s2, 8 <= s1 → 8 <= s2 →
     fst (weighted_fatigue_score (<["Sleep_Hours" := VNum s1]> row))
     = fst (weighted_fatigue_score (<["Sleep_Hours" := VNum s2]> row)))
  ∧ (∀ c1 c2, (2 <= c1 ∧ 2 <= c2) ∨ (c1 < 2 ∧ c2 < 2) →
     fst (weighted_fatigue_score (<["Caffeine_Cups" := VNum c1]> row))
     = fst (weighted_fatigue_score (<["Caffeine_Cups" := VNum c2]> row)))
  ∧ (∀ r1 r2, 20 <= r1 → 20 <= r2 →
     fst (weighted_fatigue_score (<["Rest_Breaks" := VNum r1]> row))
     = fst (weighted_fatigue_score (<["Rest_Breaks" := VNum r2]> row)))
  ∧ (∀ t1 t2, t1 <= 5 → t2 <= 5 →
     fst (weighted_fatigue_score (<["Stress_Level" := VNum t1]> row))
     = fst (weighted_fatigue_score (<["Stress_Level" := VNum t2]> row)))
  ∧ (∀ bound, ∃ d q,
       0 <= d
       ∧ fst (weighted_fatigue_score
                (<["Driving_Hours" := VNum d]> row)) = Ret q
       ∧ bound < q).
Proof.
  intros F.
  split; [|split; [|split; [|split; [|split]]]].
  - intros d1 d2 H1 H2.
    rewrite !(score_set_driving _ _ _ _ _ _ _ _ F). f_equal.
    unfold score_value. cbv zeta.
    by rewrite (py_max_zero_left (d1 - 6)), (py_max_zero_left (d2 - 6))
      by lra.
  - intros s1 s2 H1 H2.
    rewrite !(score_set_sleep _ _ _ _ _ _ _ _ F). f_equal.
    unfold score_value. cbv zeta.
    by rewrite (py_max_zero_left (8 - s1)), (py_max_zero_left (8 - s2))
      by lra.
  - intros c1 c2 Hc.
    rewrite !(score_set_caffeine _ _ _ _ _ _ _ _ F). f_equal.
    unfold score_value. cbv zeta.
    destruct Hc as [[H1 H2]|[H1 H2]].
    + by rewrite (proj2 (py_ge_true c1 2) H1), (proj2 (py_ge_true c2 2) H2).
    + by rewrite (proj2 (py_ge_false c1 2) H1), (proj2 (py_ge_false c2 2) H2).
  - intros r1 r2 H1 H2.
    rewrite !(score_set_rest _ _ _ _ _ _ _ _ F). f_equal.
    unfold score_value. cbv zeta.
    by rewrite (py_max_zero_left (20 - r1)), (py_max_zero_left (20 - r2))
      by lra.
  - intros t1 t2 H1 H2.
    rewrite !(score_set_stress _ _ _ _ _ _ _ _ F). f_equal.
    unfold score_value. cbv zeta.
    by rewrite (proj2 (py_gt_false t1 5) H1), (proj2 (py_gt_false t2 5) H2).
  - intros bound. exists (Qmax 0 bound + 7). eexists.
    pose proof (Q.le_max_l 0 bound). pose proof (Q.le_max_r 0 bound).
    split; [lra|]. split.
    + erewrite weighted_fatigue_score_run;
        [reflexivity | by eapply row_fields_set_driving].
    + pose proof (score_value_six_terms sleep (Qmax 0 bound + 7) caffeine
                    rest stress tod) as E.
      pose proof (six_terms_nonneg sleep (Qmax 0 bound + 7) caffeine rest
                    stress tod) as (H1 & _ & H3 & H4 & H5 & H6).
      unfold six_term_sum in E. rewrite E.
      assert (driving_term (Qmax 0 bound + 7) == 1.2 * (Qmax 0 bound + 1)).
      { unfold driving_term. rewrite Q.max_r by lra. lra. }
      lra.
Qed.

Lemma two_le_six : 2 <= 6.
Proof. discriminate. Defined.

Lemma five_le_six : 5 <= 6.
Proof. discriminate. Defined.

Lemma score_flat_zones_no_ceiling_witness :
  row_fields night_row 5 9 0 10 8 (VStr "Night")
  ∧ 2 <= 6 ∧ 5 <= 6
  ∧ fst (weighted_fatigue_score (<["Driving_Hours" := VNum 2]> night_row))
    = fst (weighted_fatigue_score (<["Driving_Hours" := VNum 5]> night_row)).
Proof.
  split; [exact night_row_fields|].
  split; [exact two_le_six|].
  split; [exact five_le_six|].
  exact (proj1 (score_flat_zones_no_ceiling night_row 5 9 0 10 8
                  (VStr "Night") night_row_fields)
           2 5 two_le_six five_le_six).
Defined.

(** X5.  On a synthetic row whose draws lie in the generator's intervals
    the score is at least 0 and at most 26. *)
Theorem generated_score_bounds (x : sample) :
  in_ranges x →
  ∃ score,
    weighted_fatigue_score (sample_row x) = (Ret score, sample_row x)
    ∧ 0 <= score ∧ score <= 26.
Proof.
  intros ((? & ?) & (? & ?) & (? & ?) & (? & ?) & (? & ?)).
  exists (sample_score x). split; [apply sample_row_score|].
  unfold sample_score, score_value, py_max. cbv zeta.
  destruct (py_eq_str _ "Night"); py_cases; split; lra.
Qed.

Lemma tired_sample_in_ranges : in_ranges tired_sample.
Proof. repeat split; (discriminate || reflexivity). Defined.

Lemma generated_score_bounds_witness :
  in_ranges tired_sample
  ∧ ∃ score,
      weighted_fatigue_score (sample_row tired_sample)
      = (Ret score, sample_row tired_sample)
      ∧ 0 <= score ∧ score <= 26.
Proof.
  split.
  - exact tired_sample_in_ranges.
  - exact (generated_score_bounds tired_sample tired_sample_in_ranges).
Defined.

(** ** When a prediction is returned *)

Lemma read_only_predict_status {S} `{HasRow S} model scaler le_time :
  read_only (predict_status (S := S) model scaler le_time).
Proof.
  unfold predict_status.
  do 9 (apply read_only_bind; [solve [auto with py_ro] | intros ?]).
  apply read_only_bind; [solve [auto with py_ro] | intros ?].
  apply read_only_bind; [apply read_only_score | intros ?].
  apply read_only_ret.
Qed.

Lemma to_float_array_nums (qs : list Q) :
  to_float_array (VNum <$> qs) = Ret qs.
Proof.
  induction qs as [|q qs IH]; [done|].
  cbn [fmap list_fmap to_float_array]. fold (fmap (M := list) VNum qs).
  by rewrite IH.
Qed.

Lemma np_max_returns (xs : list Q) :
  (∃ m, np_max xs = Ret m) ↔ xs ≠ [].
Proof.
  split.
  - intros [m E] ->. discriminate.
  - intros Hne. destruct (np_max_spec xs Hne) as (m & E & _). eauto.
Qed.

Lemma le_transform_returns (le : LabelEncoder) (v : value) (enc : Q) :
  le_transform le v = Ret enc →
  ∃ label i, v = VStr label ∧ index_of label (classes_ le) = Some i
             ∧ enc = inject_Z (Z.of_nat i).
Proof.
  destruct v as [q|label]; [done|]. unfold le_transform.
  destruct (index_of label (classes_ le)) as [i|] eqn:E; [|done].
  intros [= <-]. eauto.
Qed.

Lemma index_of_lookup (s : string) (l : list string) (i : nat) :
  index_of s l = Some i → l !! i = Some s.
Proof.
  revert i. induction l as [|x l IH]; intros i; [done|]. cbn [index_of].
  destruct (String.eqb_spec x s) as [->|Hne].
  - by intros [= <-].
  - destruct (index_of s l) as [j|]; [|done].
    intros [= <-]. by apply IH.
Qed.

(** X6.  [predict_status] returns a triple only if the row holds numbers in
    the five columns of the score, has an Age, and its Time_of_Day is a
    string among the encoder's classes; it does return when, moreover, Age
    is a number and the classifier reports at least one probability for
    the scaled features.  Whether it returns or raises, it leaves the row
    and the rest of the state as they were. *)
Theorem predict_status_return_conditions {S} `{HasRow S} (s : S)
    model scaler le_time :
  ((∃ triple, fst (predict_status model scaler le_time s) = Ret triple) →
   ∃ sleep driving caffeine rest stress label i,
     row_fields (row_of s) sleep driving caffeine rest stress (VStr label)
     ∧ is_Some (row_of s !! "Age")
     ∧ index_of label (classes_ le_time) = Some i)
  ∧ (∀ sleep driving caffeine rest age stress label i,
       row_fields (row_of s) sleep driving caffeine rest stress (VStr label) →
       row_of s !! "Age" = Some (VNum age) →
       index_of label (classes_ le_time) = Some i →
       predict_proba model
         (scaled_features scaler sleep driving caffeine rest age stress
            (inject_Z (Z.of_nat i))) ≠ [] →
       ∃ triple, fst (predict_status model scaler le_time s) = Ret triple)
  ∧ snd (predict_status model scaler le_time s) = s.
Proof.
  split; [|split; [|apply read_only_predict_status]].
  - intros [triple E]. unfold predict_status in E.
    py_read_item_in E s "Sleep_Hours" Hs.
    py_read_item_in E s "Driving_Hours" Hd.
    py_read_item_in E s "Caffeine_Cups" Hc.
    py_read_item_in E s "Rest_Breaks" Hr.
    py_read_item_in E s "Age" Ha.
    py_read_item_in E s "Stress_Level" Hst.
    py_read_item_in E s "Time_of_Day" Ht.
    destruct (le_transform le_time v5) as [enc|e] eqn:Hle; [|done].
    apply le_transform_returns in Hle as (label & i & -> & Hi & ->).
    rewrite bind_lift_run in E. cbv beta zeta in E.
    destruct v as [sleep|]; [|done].
    destruct v0 as [driving|]; [|done].
    destruct v1 as [caffeine|]; [|done].
    destruct v2 as [rest|]; [|done].
    destruct v3 as [age|]; [|done].
    destruct v4 as [stress|]; [|done].
    exists sleep, driving, caffeine, rest, stress, label, i.
    split; [done|]. split; [eauto | done].
  - intros sleep driving caffeine rest age stress label i F Ha Hi Hne.
    destruct (np_max_spec _ Hne) as (c & Hc & _).
    eexists. erewrite predict_status_run; [reflexivity | done | done | | done].
    unfold le_transform. by rewrite Hi.
Qed.

Lemma night_index :
  index_of "Night" (classes_ three_class_encoder) = Some 2%nat.
Proof. reflexivity. Defined.

Lemma predict_status_return_conditions_witness :
  row_fields night_row 5 9 0 10 8 (VStr "Night")
  ∧ night_row !! "Age" = Some (VNum 35)
  ∧ index_of "Night" (classes_ three_class_encoder) = Some 2%nat
  ∧ predict_proba stump
      (scaled_features (fit_plain_scaler []) 5 9 0 10 35 8
         (inject_Z (Z.of_nat 2))) ≠ []
  ∧ ∃ triple,
      fst (predict_status stump (fit_plain_scaler []) three_class_encoder
             night_row) = Ret triple.
Proof.
  split; [exact night_row_fields|].
  split; [exact night_row_age|].
  split; [exact night_index|].
  split; [exact (stump_proba_nonempty _)|].
  exact (proj1 (proj2 (predict_status_return_conditions night_row stump
                         (fit_plain_scaler []) three_class_encoder))
           5 9 0 10 35 8 "Night" 2%nat night_row_fields night_row_age
           night_index (stump_proba_nonempty _)).
Defined.

(** ** The form handler never half-updates the session *)

Lemma submit_cases model scaler le_time now (f : form)
    (w : world) :
  (∃ record,
     add_driver_submit model scaler le_time now f w
     = (Ret tt, {| driver_records := driver_records w ++ [record];
                   files := files w |}))
  ∨ (∃ e, add_driver_submit model scaler le_time now f w = (Exc e, w)).
Proof.
  pose proof (read_only_predict_status model scaler le_time
                (form_input_data f, w)) as Hro.
  cbv [add_driver_submit with_row mbind Py_bind].
  destruct (predict_status model scaler le_time (form_input_data f, w))
    as [[[[pred conf] score]|e] [d w']]; simpl in Hro;
    injection Hro as -> ->.
  - left. eexists. reflexivity.
  - right. exists e. reflexivity.
Qed.

(** X7.  Submitting a form either returns with exactly one record appended
    to the table, or raises and leaves the table and the files exactly as
    they were; nothing else can happen. *)
Theorem submit_all_or_nothing model scaler le_time now (f : form)
    (w : world) :
  (∃ record,
     add_driver_submit model scaler le_time now f w
     = (Ret tt, {| driver_records := driver_records w ++ [record];
                   files := files w |}))
  ∨ (∃ e, add_driver_submit model scaler le_time now f w = (Exc e, w)).
Proof.
  pose proof (read_only_predict_status model scaler le_time
                (form_input_data f, w)) as Hro.
  cbv [add_driver_submit with_row mbind Py_bind].
  destruct (predict_status model scaler le_time (form_input_data f, w))
    as [[[[pred conf] score]|e] [d w']]; simpl in Hro;
    injection Hro as -> ->.
  - left. eexists. reflexivity.
  - right. exists e. reflexivity.
Qed.

(** ** The label encoder *)

(** Codes can be decoded: when [transform] returns a code for a label,
    the code is a position in [classes_] and that position holds the label;
    hence two labels with the same code are the same label. *)
Lemma le_transform_decodes (le : LabelEncoder) (l1 l2 : string) (enc : Q) :
  le_transform le (VStr l1) = Ret enc →
  (∃ i, enc = inject_Z (Z.of_nat i) ∧ classes_ le !! i = Some l1)
  ∧ (le_transform le (VStr l2) = Ret enc → l1 = l2).
Proof.
  intros (a & i & [= <-] & Hi & ->)%le_transform_returns.
  split; [exists i; split; [done | by apply index_of_lookup]|].
  intros (b & j & [= <-] & Hj & E)%le_transform_returns.
  injection E as E. apply Nat2Z.inj in E as ->.
  apply index_of_lookup in Hi, Hj. congruence.
Qed.

Lemma night_code : le_transform three_class_encoder (VStr "Night") = Ret 2.
Proof. reflexivity. Defined.

Lemma le_transform_decodes_witness :
  le_transform three_class_encoder (VStr "Night") = Ret 2
  ∧ (∃ i, 2 = inject_Z (Z.of_nat i)
          ∧ classes_ three_class_encoder !! i = Some "Night")
  ∧ (le_transform three_class_encoder (VStr "Morning") = Ret 2
     → "Night" = "Morning").
Proof.
  split.
  - exact night_code.
  - exact (le_transform_decodes three_class_encoder "Night" "Morning" 2
             night_code).
Defined.

Lemma sorted_unique_drawn (draws : list sample) :
  sorted_unique (sample_label <$> draws) = drawn_classes draws.
Proof.
  unfold sorted_unique, drawn_classes, drawn.
  induction draws as [|x draws IH]; [done|].
  cbn [fmap list_fmap foldr existsb].
  fold (fmap (M := list) sample_label draws). rewrite IH.
  unfold sample_label.
  destruct (draw_time x),
    (existsb (λ x, time_eqb (draw_time x) Afternoon) draws),
    (existsb (λ x, time_eqb (draw_time x) Morning) draws),
    (existsb (λ x, time_eqb (draw_time x) Night) draws); reflexivity.
Qed.

Lemma drawn_elem (t : time_choice) (draws : list sample) :
  t ∈ draw_time <$> draws → drawn t draws = true.
Proof.
  intros (x & -> & Hx)%list_elem_of_fmap. unfold drawn.
  apply existsb_exists. exists x.
  split; [by apply list_elem_of_In | by destruct (draw_time x)].
Qed.

(** X9.  The encoder [train_model] returns lists the times of day that
    occur among the draws in alphabetical order, whatever the order and
    the number of the draws.  When all three occur, the classes are
    Afternoon, Morning, Night and their codes are 0, 1 and 2. *)
Theorem trained_encoder_codes fit_scaler fit_forest (draws : list sample)
    model scaler le_time :
  train_model fit_scaler fit_forest draws = Ret (model, scaler, le_time) →
  classes_ le_time = drawn_classes draws
  ∧ ((∀ t, t ∈ draw_time <$> draws) →
     classes_ le_time = ["Afternoon"; "Morning"; "Night"]
     ∧ le_transform le_time (VStr "Afternoon") = Ret 0
     ∧ le_transform le_time (VStr "Morning") = Ret 1
     ∧ le_transform le_time (VStr "Night") = Ret 2).
Proof.
  rewrite train_model_returns. intros [= _ _ <-].
  cbn [classes_ le_fit]. rewrite sorted_unique_drawn.
  split; [done|]. intros Hall.
  unfold le_transform. cbn [classes_ le_fit].
  rewrite sorted_unique_drawn. unfold drawn_classes.
  rewrite !drawn_elem by apply Hall. by repeat split.
Qed.

Lemma three_draws_cover : ∀ t, t ∈ draw_time <$> three_draws.
Proof.
  intros []; cbn;
    repeat first [apply list_elem_of_here | apply list_elem_of_further].
Qed.

Lemma trained_encoder_codes_witness :
  train_model fit_plain_scaler fit_stump three_draws
  = Ret (stump, fit_plain_scaler [], three_class_encoder)
  ∧ (∀ t, t ∈ draw_time <$> three_draws)
  ∧ classes_ three_class_encoder = ["Afternoon"; "Morning"; "Night"]
  ∧ le_transform three_class_encoder (VStr "Afternoon") = Ret 0
  ∧ le_transform three_class_encoder (VStr "Morning") = Ret 1
  ∧ le_transform three_class_encoder (VStr "Night") = Ret 2.
Proof.
  split; [exact three_draws_trained|].
  split; [exact three_draws_cover|].
  exact (proj2 (trained_encoder_codes fit_plain_scaler fit_stump three_draws
                  stump (fit_plain_scaler []) three_class_encoder
                  three_draws_trained) three_draws_cover).
Defined.

(** ** The figures *)

Lemma create_feature_radar_run {S} `{HasRow S} (s : S)
    sleep driving caffeine rest stress :
  row_of s !! "Sleep_Hours" = Some (VNum sleep) →
  row_of s !! "Driving_Hours" = Some (VNum driving) →
  row_of s !! "Caffeine_Cups" = Some (VNum caffeine) →
  row_of s !! "Rest_Breaks" = Some (VNum rest) →
  row_of s !! "Stress_Level" = Some (VNum stress) →
  create_feature_radar s
  = (Ret {| radar_r := [sleep / 12 * 10; (16 - driving) / 16 * 10;
                        caffeine / 5 * 10; rest / 120 * 10;
                        (10 - stress) / 10 * 10];
            radar_theta := ["Sleep Quality"; "Driving Time"; "Caffeine Level";
                            "Rest Breaks"; "Stress Level"];
            radialaxis_range := (0, 10) |}, s).
Proof.
  intros Hs Hd Hc Hr Hst. unfold create_feature_radar.
  py_read Hs. py_read Hd. py_read Hc. py_read Hr. py_read Hst.
  reflexivity.
Qed.

(** X10.  On a row holding the five numbers, with sleep within 0..12,
    driving within 0..16, caffeine within 0..5, rest within 0..120 and
    stress within 0..10, the radar has one value per category, every value
    lies on the radial axis (0 to 10), and the row is not changed. *)
Theorem radar_on_axis {S} `{HasRow S} (s : S)
    sleep driving caffeine rest stress :
  row_of s !! "Sleep_Hours" = Some (VNum sleep) →
  row_of s !! "Driving_Hours" = Some (VNum driving) →
  row_of s !! "Caffeine_Cups" = Some (VNum caffeine) →
  row_of s !! "Rest_Breaks" = Some (VNum rest) →
  row_of s !! "Stress_Level" = Some (VNum stress) →
  (0 <= sleep ∧ sleep <= 12) ∧ (0 <= driving ∧ driving <= 16)
  ∧ (0 <= caffeine ∧ caffeine <= 5) ∧ (0 <= rest ∧ rest <= 120)
  ∧ (0 <= stress ∧ stress <= 10) →
  ∃ fig,
    create_feature_radar s = (Ret fig, s)
    ∧ length (radar_r fig) = length (radar_theta fig)
    ∧ ∀ v, v ∈ radar_r fig →
        fst (radialaxis_range fig) <= v ∧ v <= snd (radialaxis_range fig).
Proof.
  intros Hs Hd Hc Hr Hst ((? & ?) & (? & ?) & (? & ?) & (? & ?) & (? & ?)).
  eexists. split; [|split].
  - by apply create_feature_radar_run.
  - reflexivity.
  - cbn [radar_r radialaxis_range fst snd].
    assert (E1 : sleep / 12 * 10 == sleep * (5 # 6)) by field.
    assert (E2 : (16 - driving) / 16 * 10 == (16 - driving) * (5 # 8))
      by field.
    assert (E3 : caffeine / 5 * 10 == caffeine * 2) by field.
    assert (E4 : rest / 120 * 10 == rest * (1 # 12)) by field.
    assert (E5 : (10 - stress) / 10 * 10 == 10 - stress) by field.
    revert E1 E2 E3 E4 E5.
    generalize (sleep / 12 * 10) ((16 - driving) / 16 * 10)
      (caffeine / 5 * 10) (rest / 120 * 10) ((10 - stress) / 10 * 10).
    intros v1 v2 v3 v4 v5 E1 E2 E3 E4 E5 v Hv.
    repeat (apply elem_of_cons in Hv as [->|Hv]; [split; lra|]).
    by apply elem_of_nil in Hv.
Qed.

Lemma night_radar_ranges :
  (0 <= 5 ∧ 5 <= 12) ∧ (0 <= 9 ∧ 9 <= 16) ∧ (0 <= 0 ∧ 0 <= 5)
  ∧ (0 <= 10 ∧ 10 <= 120) ∧ (0 <= 8 ∧ 8 <= 10).
Proof. repeat split; discriminate. Defined.

Lemma radar_on_axis_witness :
  night_row !! "Sleep_Hours" = Some (VNum 5)
  ∧ ((0 <= 5 ∧ 5 <= 12) ∧ (0 <= 9 ∧ 9 <= 16) ∧ (0 <= 0 ∧ 0 <= 5)
     ∧ (0 <= 10 ∧ 10 <= 120) ∧ (0 <= 8 ∧ 8 <= 10))
  ∧ ∃ fig,
      create_feature_radar night_row = (Ret fig, night_row)
      ∧ length (radar_r fig) = length (radar_theta fig)
      ∧ ∀ v, v ∈ radar_r fig →
          fst (radialaxis_range fig) <= v ∧ v <= snd (radialaxis_range fig).
Proof.
  split; [reflexivity|].
  split; [exact night_radar_ranges|].
  exact (radar_on_axis night_row 5 9 0 10 8
           eq_refl eq_refl eq_refl eq_refl eq_refl night_radar_ranges).
Defined.

(** X11.  The gauge's bar colour fits its background steps: two scores
    inside the same step get the same bar colour, and the bar is red
    exactly from the threshold line on. *)
Theorem gauge_bar_matches_steps (s1 s2 : Q) (st : gauge_step) :
  st ∈ gauge_steps (create_gauge_chart s1 10) →
  fst (step_range st) <= s1 ∧ s1 < snd (step_range st) →
  fst (step_range st) <= s2 ∧ s2 < snd (step_range st) →
  bar_color (create_gauge_chart s1 10) = bar_color (create_gauge_chart s2 10)
  ∧ (bar_color (create_gauge_chart s1 10) = "#ef4444"
     ↔ threshold_value (create_gauge_chart s1 10) <= s1).
Proof.
  cbn [gauge_steps create_gauge_chart bar_color threshold_value].
  unfold get_risk_color.
  intros Hst [? ?] [? ?].
  repeat (apply elem_of_cons in Hst as [->|Hst]);
    [| | |by apply elem_of_nil in Hst];
    cbn [step_range fst snd] in *;
    py_cases; (split; [done || lra|]); split; intros; (done || lra).
Qed.

Lemma moderate_step_elem :
  {| step_range := (3, 5); step_color := "#fef3c7" |}
  ∈ gauge_steps (create_gauge_chart 3.5 10).
Proof. apply list_elem_of_further, list_elem_of_here. Qed.

Lemma in_moderate_step_a : (3 : Q) <= 3.5 ∧ 3.5 < (5 : Q).
Proof. split; [discriminate | reflexivity]. Defined.

Lemma in_moderate_step_b : (3 : Q) <= 4.75 ∧ 4.75 < (5 : Q).
Proof. split; [discriminate | reflexivity]. Defined.

Lemma gauge_bar_matches_steps_witness :
  ((3 : Q) <= 3.5 ∧ 3.5 < (5 : Q)) ∧ ((3 : Q) <= 4.75 ∧ 4.75 < (5 : Q))
  ∧ bar_color (create_gauge_chart 3.5 10)
    = bar_color (create_gauge_chart 4.75 10)
  ∧ (bar_color (create_gauge_chart 3.5 10) = "#ef4444"
     ↔ threshold_value (create_gauge_chart 3.5 10) <= 3.5).
Proof.
  split; [exact in_moderate_step_a|].
  split; [exact in_moderate_step_b|].
  exact (gauge_bar_matches_steps 3.5 4.75
           {| step_range := (3, 5); step_color := "#fef3c7" |}
           moderate_step_elem in_moderate_step_a in_moderate_step_b).
Defined.

(** X12.  The banner kind and its text never disagree: the SAFE message is
    shown as a success, the CAUTION message as a warning and the DANGER
    message as an error, and the text is the one [get_action_message]
    gives for the score. *)
Theorem banner_kind_matches_message (score : Q) :
  snd (action_banner score) = get_action_message score
  ∧ (fst (action_banner score) = st_success
     ↔ snd (action_banner score) = SAFE_MESSAGE)
  ∧ (fst (action_banner score) = st_warning
     ↔ snd (action_banner score) = CAUTION_MESSAGE)
  ∧ (fst (action_banner score) = st_error
     ↔ snd (action_banner score) = DANGER_MESSAGE).
Proof.
  unfold action_banner, get_action_message.
  destruct (py_lt score 3); [|destruct (py_lt score 5)];
    cbn [fst snd]; repeat split; intros; done.
Qed.

(** ** The timeline chart and the frame it is handed *)

Lemma df_getcol_rows (col : string) (df : DataFrame) :
  (∀ row, row ∈ df → is_Some (row !! col)) →
  df_getcol col df = Ret (cell col <$> df).
Proof.
  induction df as [|row df IH]; intros Hall; [done|].
  cbn [df_getcol fmap list_fmap]. fold (fmap (M := list) (cell col) df).
  destruct (Hall row) as [v Hv]; [apply list_elem_of_here|].
  rewrite Hv, IH by (intros; apply Hall; by apply list_elem_of_further).
  unfold cell at 2. by rewrite Hv.
Qed.

Lemma df_setcol_rows (col : string) (v : gmap string value → value)
    (df : DataFrame) :
  df_setcol col (v <$> df) df = (λ row, <[col := v row]> row) <$> df.
Proof.
  rewrite <- (list_fmap_id df) at 2. apply df_setcol_fmap.
Qed.

Lemma plottable_stamp to_datetime row :
  plottable to_datetime row →
  to_datetime (cell "Timestamp" row) = Ret (stamp_of to_datetime row).
Proof.
  intros [(ts & dt & Hts & Hdt) _]. unfold stamp_of, cell.
  by rewrite Hts; cbn; rewrite Hdt.
Qed.

(** The frame the caller is left with, in every case. *)
Lemma timeline_final_frame to_datetime sort_values (records : DataFrame) :
  snd (create_timeline_chart to_datetime sort_values records)
  = match records with
    | [] => []
    | _ :: _ =>
        match df_getcol "Timestamp" records ≫= result_map to_datetime with
        | Ret dts => df_setcol "Timestamp_dt" (VNum <$> dts) records
        | Exc _ => records
        end
    end.
Proof.
  destruct records as [|row records]; [done|].
  unfold create_timeline_chart.
  cbv [mbind Py_bind get_state put_state lift_result mret Py_ret].
  cbv beta iota.
  destruct (df_getcol "Timestamp" (row :: records)) as [ts|e]; [|done].
  cbn [result_bind].
  destruct (result_map to_datetime ts) as [dts|e]; [|done].
  by destruct (result_map _ ["Alert"; "Fatigued"]).
Qed.

Lemma timeline_final_rows to_datetime sort_values (records : DataFrame) :
  (∀ row, row ∈ records →
     ∃ ts dt, row !! "Timestamp" = Some ts ∧ to_datetime ts = Ret dt) →
  snd (create_timeline_chart to_datetime sort_values records)
  = stamped to_datetime <$> records.
Proof.
  intros Hall.
  rewrite timeline_final_frame. destruct records as [|r0 records]; [done|].
  rewrite df_getcol_rows
    by (intros row Hr; destruct (Hall row Hr) as (ts & _ & -> & _); eauto).
  cbn [mbind result_bind].
  rewrite (result_map_fmap to_datetime (cell "Timestamp")
             (stamp_of to_datetime)).
  - rewrite <- list_fmap_compose.
    apply (df_setcol_rows "Timestamp_dt" (VNum ∘ stamp_of to_datetime)).
  - intros row Hr. destruct (Hall row Hr) as (ts & dt & Hts & Hdt).
    unfold stamp_of, cell. by rewrite Hts; cbn; rewrite Hdt.
Qed.

(** X13.  On a frame with rows whose timestamps all parse,
    [create_timeline_chart] writes into the frame it was handed: every row
    gains a Timestamp_dt cell holding its parsed timestamp, while the
    rows' other cells, their number and their order stay as they were
    (the sorting is done on a local copy), whether or not drawing the
    traces then succeeds. *)
Theorem timeline_writes_to_callers_frame to_datetime sort_values
    (records : DataFrame) :
  (∀ row, row ∈ records →
     ∃ ts dt, row !! "Timestamp" = Some ts ∧ to_datetime ts = Ret dt) →
  snd (create_timeline_chart to_datetime sort_values records)
  = stamped to_datetime <$> records
  ∧ (∀ i row, records !! i = Some row →
       ∃ row', snd (create_timeline_chart to_datetime sort_values records) !! i
               = Some row'
         ∧ is_Some (row' !! "Timestamp_dt")
         ∧ ∀ col, col ≠ "Timestamp_dt" → row' !! col = row !! col).
Proof.
  intros Hall.
  assert (E := timeline_final_rows to_datetime sort_values records Hall).
  split; [done|]. rewrite E. intros i row Hi.
  exists (stamped to_datetime row).
  split; [by rewrite list_lookup_fmap, Hi|].
  split; [unfold stamped; rewrite lookup_insert_eq; eauto|].
  intros col Hne. unfold stamped. by rewrite lookup_insert_ne.
Qed.

Lemma list_filter_Permutation {A} (p : A → bool) (l1 l2 : list A) :
  l1 ≡ₚ l2 → List.filter p l1 ≡ₚ List.filter p l2.
Proof.
  induction 1 as [|x l1 l2 _ IH|x y l|l1 l2 l3 _ IH1 _ IH2]; cbn.
  - done.
  - destruct (p x); [by constructor | done].
  - destruct (p x), (p y); try done. apply perm_swap.
  - by etrans.
Qed.

Lemma fmap_Permutation_inv {A B} (f : A → B) (l1 : list B) (l2 : list A) :
  l1 ≡ₚ f <$> l2 → ∃ l3, l1 = f <$> l3 ∧ l2 ≡ₚ l3.
Proof.
  intros (l3 & -> & Hp)%Permutation_map_inv. by exists l3.
Qed.

Lemma list_filter_elem {A} (p : A → bool) (l : list A) (x : A) :
  x ∈ List.filter p l → x ∈ l.
Proof.
  rewrite !list_elem_of_In. by intros [? _]%filter_In.
Qed.

Lemma df_where_eq_rows (col lit : string) (df : DataFrame) :
  (∀ row, row ∈ df → is_Some (row !! col)) →
  df_where_eq col lit df
  = Ret (List.filter (λ row, py_eq_str (cell col row) lit) df).
Proof.
  intros Hall. unfold df_where_eq. rewrite (df_getcol_rows _ _ Hall).
  cbn [mbind result_bind mret result_ret]. f_equal. clear Hall.
  induction df as [|row df IH]; [done|].
  cbn [fmap list_fmap zip zip_with List.filter snd].
  fold (fmap (M := list) (cell col) df).
  destruct (py_eq_str (cell col row) lit); cbn [fmap list_fmap fst];
    by rewrite <- IH.
Qed.

Lemma sub_getcol_rows (col : string) (parent sub : DataFrame) :
  (∀ row, row ∈ parent → is_Some (row !! col)) →
  (∀ row, row ∈ sub → row ∈ parent) →
  sub_getcol col parent sub = Ret (cell col <$> sub).
Proof.
  intros Hp Hs. unfold sub_getcol. rewrite (df_getcol_rows _ _ Hp).
  cbn [mbind result_bind]. apply df_getcol_rows. auto.
Qed.

Lemma stamped_cell to_datetime col row :
  col ≠ "Timestamp_dt" → cell col (stamped to_datetime row) = cell col row.
Proof. intros Hne. unfold cell, stamped. by rewrite lookup_insert_ne. Qed.

Lemma stamped_lookup to_datetime col row :
  is_Some (row !! col) → is_Some (stamped to_datetime row !! col).
Proof.
  intros Hs. unfold stamped.
  destruct (decide (col = "Timestamp_dt")) as [->|Hne].
  - rewrite lookup_insert_eq. eauto.
  - by rewrite lookup_insert_ne.
Qed.

Lemma rows_with_stamped to_datetime status (records : DataFrame) :
  rows_with status (stamped to_datetime <$> records)
  = stamped to_datetime <$> rows_with status records.
Proof.
  unfold rows_with. induction records as [|row records IH]; [done|].
  cbn [fmap list_fmap List.filter].
  fold (fmap (M := list) (stamped to_datetime) records).
  rewrite stamped_cell by discriminate.
  destruct (py_eq_str (cell "Prediction" row) status);
    cbn [fmap list_fmap]; by rewrite IH.
Qed.

Lemma timeline_run to_datetime sort_values (records : DataFrame) :
  records ≠ [] →
  (∀ row, row ∈ records → plottable to_datetime row) →
  (∀ col asc df, sort_values col asc df ≡ₚ df) →
  fst (create_timeline_chart to_datetime sort_values records)
  = Ret (Some
           [status_trace_of
              (sort_values "Timestamp_dt" true
                 (stamped to_datetime <$> records)) "Alert";
            status_trace_of
              (sort_values "Timestamp_dt" true
                 (stamped to_datetime <$> records)) "Fatigued"]).
Proof.
  intros Hne Hall Hperm.
  set (frame := stamped to_datetime <$> records).
  set (sorted := sort_values "Timestamp_dt" true frame).
  assert (Hsorted : sorted ≡ₚ frame) by apply Hperm.
  assert (Hcols : ∀ col,
            (∀ row, row ∈ records → is_Some (row !! col)) →
            ∀ row, row ∈ sorted → is_Some (row !! col)).
  { intros col Hcol row Hin. rewrite Hsorted in Hin.
    apply list_elem_of_fmap in Hin as (r & -> & Hr).
    by apply stamped_lookup, Hcol. }
  assert (Hdt : ∀ row, row ∈ sorted → is_Some (row !! "Timestamp_dt")).
  { intros row Hin. rewrite Hsorted in Hin.
    apply list_elem_of_fmap in Hin as (r & -> & Hr).
    unfold stamped. rewrite lookup_insert_eq. eauto. }
  assert (Hpred := Hcols "Prediction" (λ r Hr, proj1 (proj2 (Hall r Hr)))).
  assert (Hscore := Hcols "Fatigue_Score"
                      (λ r Hr, proj1 (proj2 (proj2 (Hall r Hr))))).
  assert (Hname := Hcols "Name" (λ r Hr, proj2 (proj2 (proj2 (Hall r Hr))))).
  assert (Htrace : ∀ status,
            status_trace sorted status = Ret (status_trace_of sorted status)).
  { intros status. unfold status_trace, status_trace_of.
    rewrite (df_where_eq_rows _ _ _ Hpred). cbn [mbind result_bind].
    fold (rows_with status sorted).
    rewrite !sub_getcol_rows;
      try done; intros row; apply list_filter_elem. }
  destruct records as [|r0 records]; [done|].
  unfold create_timeline_chart.
  cbv [mbind Py_bind get_state put_state lift_result mret Py_ret].
  cbv beta iota.
  rewrite df_getcol_rows
    by (intros row Hr; destruct (Hall row Hr) as [(ts & _ & -> & _) _];
        eauto).
  cbn [result_bind].
  rewrite (result_map_fmap to_datetime (cell "Timestamp")
             (stamp_of to_datetime))
    by (intros row Hr; by apply plottable_stamp, Hall).
  rewrite <- list_fmap_compose.
  rewrite (df_setcol_rows "Timestamp_dt" (VNum ∘ stamp_of to_datetime)).
  fold (stamped to_datetime). change (stamped to_datetime <$> r0 :: records)
    with frame. fold sorted.
  cbn [result_map]. rewrite !Htrace. cbn [mbind result_bind mret result_ret].
  reflexivity.
Qed.

(** X14.  On a frame of plottable rows, and with a sort that only reorders,
    the chart has two traces, "Alert" then "Fatigued".  The points of each
    are exactly the records predicted that status, each record once with
    its own time, score and name; a record with any other prediction is
    drawn nowhere. *)
Theorem timeline_traces to_datetime sort_values (records : DataFrame) :
  records ≠ [] →
  (∀ row, row ∈ records → plottable to_datetime row) →
  (∀ col asc df, sort_values col asc df ≡ₚ df) →
  ∃ alert fatigued rows_a rows_f,
    fst (create_timeline_chart to_datetime sort_values records)
    = Ret (Some [alert; fatigued])
    ∧ trace_name alert = "Alert" ∧ trace_name fatigued = "Fatigued"
    ∧ rows_a ≡ₚ rows_with "Alert" records
    ∧ rows_f ≡ₚ rows_with "Fatigued" records
    ∧ trace_x alert = (VNum ∘ stamp_of to_datetime) <$> rows_a
    ∧ trace_y alert = cell "Fatigue_Score" <$> rows_a
    ∧ trace_text alert = cell "Name" <$> rows_a
    ∧ trace_x fatigued = (VNum ∘ stamp_of to_datetime) <$> rows_f
    ∧ trace_y fatigued = cell "Fatigue_Score" <$> rows_f
    ∧ trace_text fatigued = cell "Name" <$> rows_f.
Proof.
  intros Hne Hall Hperm.
  pose proof (timeline_run to_datetime sort_values records Hne Hall Hperm)
    as Hrun.
  set (sorted := sort_values "Timestamp_dt" true
                   (stamped to_datetime <$> records)) in *.
  assert (Hrows : ∀ status,
            ∃ rows, rows ≡ₚ rows_with status records
                    ∧ rows_with status sorted = stamped to_datetime <$> rows).
  { intros status.
    assert (Hp : rows_with status sorted
                 ≡ₚ stamped to_datetime <$> rows_with status records).
    { rewrite <- rows_with_stamped. apply list_filter_Permutation, Hperm. }
    apply fmap_Permutation_inv in Hp as (rows & E & Hp).
    exists rows. split; [by symmetry | done]. }
  assert (Hx : ∀ rows : DataFrame,
            cell "Timestamp_dt" <$> (stamped to_datetime <$> rows)
            = (VNum ∘ stamp_of to_datetime) <$> rows).
  { intros rows. rewrite <- list_fmap_compose. apply list_fmap_ext.
    intros _ row _. unfold compose, cell, stamped.
    by rewrite lookup_insert_eq. }
  assert (Hy : ∀ col (rows : DataFrame),
            col ≠ "Timestamp_dt" →
            cell col <$> (stamped to_datetime <$> rows) = cell col <$> rows).
  { intros col rows Hcol. rewrite <- list_fmap_compose. apply list_fmap_ext.
    intros _ row _. by apply stamped_cell. }
  destruct (Hrows "Alert") as (rows_a & Ha & Ea).
  destruct (Hrows "Fatigued") as (rows_f & Hf & Ef).
  exists (status_trace_of sorted "Alert"), (status_trace_of sorted "Fatigued"),
    rows_a, rows_f.
  split; [exact Hrun|].
  cbn [status_trace_of trace_name trace_x trace_y trace_text].
  rewrite Ea, Ef, !Hx, !Hy by discriminate. by repeat split.
Qed.

Lemma insert_by_Permutation col asc row (df : DataFrame) :
  insert_by col asc row df ≡ₚ row :: df.
Proof.
  induction df as [|r df IH]; [done|]. cbn [insert_by].
  destruct (if asc then _ else _); [done|].
  rewrite IH. apply perm_swap.
Qed.

Lemma insertion_sort_Permutation col asc (df : DataFrame) :
  insertion_sort col asc df ≡ₚ df.
Proof.
  unfold insertion_sort. induction df as [|r df IH]; [done|].
  cbn [foldr]. by rewrite insert_by_Permutation, IH.
Qed.

Lemma two_records_plottable :
  ∀ row, row ∈ two_records → plottable read_timestamp row.
Proof.
  intros row Hin. unfold two_records in Hin.
  repeat (apply elem_of_cons in Hin as [->|Hin]);
    [| |by apply elem_of_nil in Hin];
    (split; [do 2 eexists; split; [reflexivity | vm_compute; reflexivity]
            |repeat split; eexists; reflexivity]).
Qed.

Lemma two_records_timestamps :
  ∀ row, row ∈ two_records →
    ∃ ts dt, row !! "Timestamp" = Some ts ∧ read_timestamp ts = Ret dt.
Proof. intros row Hin. by destruct (two_records_plottable row Hin). Qed.

Lemma two_records_nonempty : two_records ≠ [].
Proof. discriminate. Qed.

Lemma timeline_writes_to_callers_frame_witness :
  (∀ row, row ∈ two_records →
     ∃ ts dt, row !! "Timestamp" = Some ts ∧ read_timestamp ts = Ret dt)
  ∧ snd (create_timeline_chart read_timestamp insertion_sort two_records)
    = stamped read_timestamp <$> two_records.
Proof.
  split.
  - exact two_records_timestamps.
  - exact (proj1 (timeline_writes_to_callers_frame read_timestamp
                    insertion_sort two_records two_records_timestamps)).
Defined.

Lemma timeline_traces_witness :
  two_records ≠ []
  ∧ (∀ row, row ∈ two_records → plottable read_timestamp row)
  ∧ (∀ col asc df, insertion_sort col asc df ≡ₚ df)
  ∧ ∃ alert fatigued rows_a rows_f,
      fst (create_timeline_chart read_timestamp insertion_sort two_records)
      = Ret (Some [alert; fatigued])
      ∧ trace_name alert = "Alert" ∧ trace_name fatigued = "Fatigued"
      ∧ rows_a ≡ₚ rows_with "Alert" two_records
      ∧ rows_f ≡ₚ rows_with "Fatigued" two_records
      ∧ trace_x alert = (VNum ∘ stamp_of read_timestamp) <$> rows_a
      ∧ trace_y alert = cell "Fatigue_Score" <$> rows_a
      ∧ trace_text alert = cell "Name" <$> rows_a
      ∧ trace_x fatigued = (VNum ∘ stamp_of read_timestamp) <$> rows_f
      ∧ trace_y fatigued = cell "Fatigue_Score" <$> rows_f
      ∧ trace_text fatigued = cell "Name" <$> rows_f.
Proof.
  split; [exact two_records_nonempty|].
  split; [exact two_records_plottable|].
  split; [exact insertion_sort_Permutation|].
  exact (timeline_traces read_timestamp insertion_sort two_records
           two_records_nonempty two_records_plottable
           insertion_sort_Permutation).
Defined.

(** ** Pages and the session table *)

Lemma world_eta (w : world) :
  {| driver_records := driver_records w; files := files w |} = w.
Proof. by destruct w. Qed.

Lemma timeline_empty to_datetime sort_values :
  create_timeline_chart to_datetime sort_values [] = (Ret None, []).
Proof. reflexivity. Qed.

Lemma bind_get_state {S B} (f : S → Py S B) (s : S) :
  (get_state ≫= f) s = f s s.
Proof. reflexivity. Qed.

Lemma read_only_get_state {S} : read_only (get_state (S := S)).
Proof. by intros s. Qed.

Lemma snd_bind_read_only {S A B} (m : Py S A) (f : A → Py S B) (s : S) :
  (∀ x, read_only (f x)) → snd ((m ≫= f) s) = snd (m s).
Proof.
  intros Hf. unfold mbind, Py_bind.
  destruct (m s) as [[x|e] s']; [apply Hf | done].
Qed.

Lemma snd_on_session_records {A} (m : Py DataFrame A) (w : world) :
  snd (on_session_records m w)
  = {| driver_records := snd (m (driver_records w)); files := files w |}.
Proof. unfold on_session_records. by destruct (m (driver_records w)). Qed.

Lemma read_only_on_records_copy {A} (m : Py DataFrame A) :
  read_only (on_records_copy m).
Proof. by intros w. Qed.

(** Whatever the Dashboard goes on to show or raise, the state it leaves
    is the one the timeline call left. *)
Lemma dashboard_final_state to_datetime sort_values (w : world) :
  snd (dashboard_page to_datetime sort_values w)
  = {| driver_records :=
         snd (create_timeline_chart to_datetime sort_values
                (driver_records w));
       files := files w |}.
Proof.
  unfold dashboard_page. rewrite bind_get_state.
  destruct (driver_records w) as [|r0 rs] eqn:Hrec.
  - rewrite timeline_empty. cbn [snd mret Py_ret].
    rewrite <- Hrec. by rewrite world_eta.
  - rewrite snd_bind_read_only.
    + by rewrite snd_on_session_records, Hrec.
    + intros fig. apply read_only_bind; [apply read_only_get_state|].
      intros w'. destruct (reverse (driver_records w')); [apply read_only_ret|].
      apply read_only_bind; [apply read_only_lift|].
      intros [[[[[[? ?] ?] ?] ?] ?] ?]. apply read_only_ret.
Qed.

Lemma analytics_read_only to_datetime sort_values :
  read_only (analytics_page to_datetime sort_values).
Proof.
  unfold analytics_page.
  apply read_only_bind; [apply read_only_get_state|]. intros w.
  destruct (driver_records w); [apply read_only_ret|].
  apply read_only_bind; [apply read_only_lift|]. intros preds.
  apply read_only_bind; [apply read_only_on_records_copy|]. intros fig.
  apply read_only_ret.
Qed.

(** X15.  Opening the Analytics page never changes the session, because
    the timeline is drawn from a copy of the table.  Opening the Dashboard
    hands the session's own table to the timeline: when the timestamps
    parse, every stored record comes out with an added Timestamp_dt cell.
    Files are untouched by both. *)
Theorem page_views_and_the_session to_datetime sort_values (w : world) :
  snd (analytics_page to_datetime sort_values w) = w
  ∧ files (snd (dashboard_page to_datetime sort_values w)) = files w
  ∧ ((∀ row, row ∈ driver_records w →
        ∃ ts dt, row !! "Timestamp" = Some ts ∧ to_datetime ts = Ret dt) →
     driver_records (snd (dashboard_page to_datetime sort_values w))
     = stamped to_datetime <$> driver_records w).
Proof.
  split; [apply analytics_read_only|].
  rewrite dashboard_final_state. cbn [files driver_records].
  split; [done|]. intros Hall.
  by apply timeline_final_rows.
Qed.

Lemma page_views_and_the_session_witness :
  (∀ row, row ∈ driver_records two_record_world →
     ∃ ts dt, row !! "Timestamp" = Some ts ∧ read_timestamp ts = Ret dt)
  ∧ driver_records
      (snd (dashboard_page read_timestamp insertion_sort two_record_world))
    = stamped read_timestamp <$> driver_records two_record_world.
Proof.
  split.
  - exact two_records_timestamps.
  - exact (proj2 (proj2 (page_views_and_the_session read_timestamp
                           insertion_sort two_record_world))
             two_records_timestamps).
Defined.

(** X16.  "Remove Last Entry" undoes a submission: after a form was
    submitted and its record appended, removing the last entry gives back
    the session exactly as it was before. *)
Theorem remove_last_undoes_submit model scaler le_time now (f : form)
    (w w' : world) :
  add_driver_submit model scaler le_time now f w = (Ret tt, w') →
  remove_last_entry w' = (Ret tt, w).
Proof.
  intros E.
  destruct (submit_cases model scaler le_time now f w)
    as [[record E']|[e E']]; rewrite E' in E; [|done].
  injection E as <-. unfold remove_last_entry. cbn [driver_records files].
  destruct (driver_records w ++ [record])%list as [|r0 rs] eqn:Happ.
  { by destruct (driver_records w). }
  rewrite <- Happ. rewrite length_app. cbn [length].
  replace (length (driver_records w) + 1 - 1)%nat
    with (length (driver_records w)) by lia.
  by rewrite take_app_length, world_eta.
Qed.

Lemma night_submit_returns :
  add_driver_submit stump (fit_plain_scaler []) three_class_encoder
    "2024-05-01 10:30:00" night_form one_record_world
  = (Ret tt,
     snd (add_driver_submit stump (fit_plain_scaler []) three_class_encoder
            "2024-05-01 10:30:00" night_form one_record_world)).
Proof. vm_compute. reflexivity. Qed.

Lemma remove_last_undoes_submit_witness :
  add_driver_submit stump (fit_plain_scaler []) three_class_encoder
    "2024-05-01 10:30:00" night_form one_record_world
  = (Ret tt,
     snd (add_driver_submit stump (fit_plain_scaler []) three_class_encoder
            "2024-05-01 10:30:00" night_form one_record_world))
  ∧ remove_last_entry
      (snd (add_driver_submit stump (fit_plain_scaler [])
              three_class_encoder "2024-05-01 10:30:00" night_form
              one_record_world))
    = (Ret tt, one_record_world).
Proof.
  split.
  - exact night_submit_returns.
  - exact (remove_last_undoes_submit stump (fit_plain_scaler [])
             three_class_encoder "2024-05-01 10:30:00" night_form
             one_record_world _ night_submit_returns).
Defined.

(** ** Quick stats *)

(** The number in a cell, for rows known to hold a number there. *)
Lemma num_cell_spec col row q :
  row !! col = Some (VNum q) → cell col row = VNum (key_of col row).
Proof. intros E. unfold cell, key_of. by rewrite E. Qed.

(** X17.  For a table with rows, each holding a prediction and a numeric
    score, the sidebar shows the number of rows as total, as fatigued the
    number of rows predicted "Fatigued", and as alert all the others,
    whatever their prediction says. *)
Theorem sidebar_stats_counts (records : DataFrame) :
  records ≠ [] →
  (∀ row, row ∈ records →
     is_Some (row !! "Prediction")
     ∧ ∃ q, row !! "Fatigue_Score" = Some (VNum q)) →
  ∃ alert fatigued avg,
    sidebar_stats records
    = Ret {| stat_total := Z.of_nat (length records);
             stat_alert := Some alert; stat_fatigued := Some fatigued;
             stat_avg_score := Some avg |}
    ∧ fatigued = Z.of_nat (length (rows_with "Fatigued" records))
    ∧ alert
      = Z.of_nat
          (length (List.filter
                     (λ row, negb (py_eq_str (cell "Prediction" row)
                                     "Fatigued")) records))
    ∧ (alert + fatigued)%Z = Z.of_nat (length records).
Proof.
  intros Hne Hall. unfold sidebar_stats.
  assert (Hpos : (0 <? Z.of_nat (length records))%Z = true).
  { apply Z.ltb_lt. destruct records; [done | cbn; lia]. }
  rewrite Hpos.
  rewrite (df_getcol_rows "Prediction")
    by (intros row Hr; apply (Hall row Hr)).
  cbn [mbind result_bind].
  rewrite (df_getcol_rows "Fatigue_Score")
    by (intros row Hr; destruct (Hall row Hr) as [_ [q ->]]; eauto).
  cbn [mbind result_bind].
  rewrite (result_map_fmap value_num _ (key_of "Fatigue_Score")).
  2: { intros row Hr. destruct (Hall row Hr) as [_ [q Hq]].
       by rewrite (num_cell_spec _ _ _ Hq). }
  cbn [mbind result_bind mret result_ret].
  do 3 eexists. split; [reflexivity|].
  assert (Hcount : ∀ (p : gmap string value → bool) (f : _ → value)
                     (g : value → bool),
            (∀ row, g (f row) = p row) →
            length (List.filter g (f <$> records))
            = length (List.filter p records)).
  { intros p f g Hpg. clear -Hpg.
    induction records as [|row rs IH]; [done|].
    cbn [fmap list_fmap List.filter]. rewrite Hpg.
    destruct (p row); cbn [length]; by rewrite <- IH. }
  pose proof (List.filter_length
                (λ row, py_eq_str (cell "Prediction" row) "Fatigued")
                records) as Hlen.
  unfold count_eq.
  rewrite (Hcount (λ row, py_eq_str (cell "Prediction" row) "Fatigued"))
    by done.
  unfold rows_with. repeat split; lia.
Qed.

Lemma two_records_scored :
  ∀ row, row ∈ two_records →
    is_Some (row !! "Prediction")
    ∧ ∃ q, row !! "Fatigue_Score" = Some (VNum q).
Proof.
  intros row Hin. unfold two_records in Hin.
  repeat (apply elem_of_cons in Hin as [->|Hin]);
    [| |by apply elem_of_nil in Hin];
    (split; eexists; reflexivity).
Qed.

Lemma sidebar_stats_counts_witness :
  two_records ≠ []
  ∧ (∀ row, row ∈ two_records →
       is_Some (row !! "Prediction")
       ∧ ∃ q, row !! "Fatigue_Score" = Some (VNum q))
  ∧ ∃ alert fatigued avg,
      sidebar_stats two_records
      = Ret {| stat_total := Z.of_nat (length two_records);
               stat_alert := Some alert; stat_fatigued := Some fatigued;
               stat_avg_score := Some avg |}
      ∧ fatigued = Z.of_nat (length (rows_with "Fatigued" two_records))
      ∧ alert
        = Z.of_nat
            (length (List.filter
                       (λ row, negb (py_eq_str (cell "Prediction" row)
                                       "Fatigued")) two_records))
      ∧ (alert + fatigued)%Z = Z.of_nat (length two_records).
Proof.
  split; [exact two_records_nonempty|].
  split; [exact two_records_scored|].
  exact (sidebar_stats_counts two_records two_records_nonempty
           two_records_scored).
Defined.

(** ** What every reachable session looks like *)

Lemma submit_outcome model scaler le_time now (f : form) (w w' : world) :
  add_driver_submit model scaler le_time now f w = (Ret tt, w') →
  ∃ pred conf,
    w' = {| driver_records :=
              driver_records w ++ [submitted_record now f pred conf];
            files := files w |}.
Proof.
  intros E.
  cbv [add_driver_submit with_row mbind Py_bind] in E.
  destruct (predict_status model scaler le_time (form_input_data f, w))
    as [[[[pred conf] score]|e] [d w1]] eqn:Hp; [|done].
  destruct (predict_status_score (form_input_data f, w) (d, w1)
              _ _ _ _ _ _ _ _ _ _ _ _ _
              (form_input_fields f) (form_input_age f) Hp) as [-> [= -> ->]].
  injection E as <-. by exists pred, conf.
Qed.

Lemma stored_submitted now (f : form) pred conf :
  stored_record (submitted_record now f pred conf).
Proof.
  exists (sleep f), (driving f), (caffeine f), (rest f), (inject_Z (age f)),
    (inject_Z (stress f)), (time_label (tod f)), (name f), now, pred, conf.
  split; [constructor; reflexivity|]. by repeat split.
Qed.

Lemma stored_other_column (r : gmap string value) (v : value) :
  stored_record r → stored_record (<["Timestamp_dt" := v]> r).
Proof.
  intros (sl & d & c & re & a & st & l & n & now & p & cf
          & [? ? ? ? ? ?] & ? & ? & ? & ? & ? & ?).
  exists sl, d, c, re, a, st, l, n, now, p, cf.
  split; [constructor|repeat split]; by rewrite lookup_insert_ne.
Qed.

Lemma Forall_df_setcol (P : gmap string value → Prop) col vals
    (df : DataFrame) :
  (∀ r v, P r → P (<[col := v]> r)) →
  Forall P df → Forall P (df_setcol col vals df).
Proof.
  intros Hins Hdf. unfold df_setcol. revert vals.
  induction Hdf as [|r df Hr _ IH]; intros [|v vals]; cbn; try constructor;
    auto.
Qed.

Lemma timeline_keeps_stored to_datetime sort_values (records : DataFrame) :
  Forall stored_record records →
  Forall stored_record
    (snd (create_timeline_chart to_datetime sort_values records)).
Proof.
  intros Hall. rewrite timeline_final_frame.
  destruct records as [|r0 rs]; [done|].
  destruct (_ ≫= _) as [dts|e]; [|done].
  apply Forall_df_setcol; [|done]. intros r v. apply stored_other_column.
Qed.

(** X18.  In every session state the app can reach - whatever was
    submitted, viewed, removed or cleared, and also after interactions
    that raised - each row of the table is a complete record whose
    Fatigue_Score is the score of the record's own input columns, and the
    files are the ones the session started with. *)
Theorem reachable_sessions_hold_records to_datetime sort_values
    model scaler le_time fs (w : world) :
  reachable to_datetime sort_values model scaler le_time fs w →
  Forall stored_record (driver_records w) ∧ files w = fs.
Proof.
  induction 1 as [|a w Hw [IHrec IHfiles]]; [by split|].
  destruct a as [now f| | | |]; cbn [step].
  - destruct (submit_cases model scaler le_time now f w)
      as [[record E]|[e E]]; [|rewrite E; by split].
    destruct (submit_outcome _ _ _ _ _ _ _ E) as (pred & conf & Ew).
    rewrite E. cbn [snd]. rewrite Ew. cbn [driver_records files].
    split; [|done]. apply Forall_app. split; [done|].
    constructor; [apply stored_submitted | constructor].
  - rewrite snd_bind_read_only by (intros; apply read_only_ret).
    rewrite dashboard_final_state. cbn [driver_records files].
    split; [by apply timeline_keeps_stored | done].
  - rewrite snd_bind_read_only by (intros; apply read_only_ret).
    by rewrite analytics_read_only.
  - unfold clear_all_records.
    destruct (driver_records w) as [|r0 rs] eqn:Hrec; cbn [snd];
      [by rewrite Hrec | by split].
  - unfold remove_last_entry.
    destruct (driver_records w) as [|r0 rs] eqn:Hrec; cbn [snd];
      [by rewrite Hrec|].
    cbn [snd driver_records files]. split; [|done].
    rewrite <- Hrec in IHrec |- *. by apply Forall_take.
Qed.

Lemma stored_plottable to_datetime (r : gmap string value) :
  stored_record r →
  (∃ ts dt, r !! "Timestamp" = Some ts ∧ to_datetime ts = Ret dt) →
  plottable to_datetime r.
Proof.
  intros (sl & d & c & re & a & st & l & n & now & p & cf
          & _ & _ & Hn & _ & Hp & _ & Hs) Hts.
  split; [done|]. rewrite Hn, Hp, Hs. eauto.
Qed.

(** X19.  After a submission returned, the Dashboard shows that
    submission as the latest driver: its name, its predicted status, its
    confidence as a percentage, a gauge at its fatigue score, the banner
    for that score and the radar of the submitted inputs.  (The stored
    records are complete, their timestamps parse and sorting only
    reorders.) *)
Theorem dashboard_shows_last_submission to_datetime sort_values
    model scaler le_time now (f : form) (w w' : world) :
  Forall stored_record (driver_records w) →
  (∀ col asc df, sort_values col asc df ≡ₚ df) →
  add_driver_submit model scaler le_time now f w = (Ret tt, w') →
  (∀ row, row ∈ driver_records w' →
     ∃ ts dt, row !! "Timestamp" = Some ts ∧ to_datetime ts = Ret dt) →
  ∃ view pred conf,
    fst (dashboard_page to_datetime sort_values w') = Ret (Some view)
    ∧ driver_records w'
      = (driver_records w ++ [submitted_record now f pred conf])%list
    ∧ view_driver view = VStr (name f)
    ∧ view_status view = VStr pred
    ∧ view_confidence_pct view = conf * 100
    ∧ gauge_value (view_gauge view)
      = score_value (sleep f) (driving f) (caffeine f) (rest f)
          (inject_Z (stress f)) (VStr (time_label (tod f)))
    ∧ view_banner view
      = action_banner
          (score_value (sleep f) (driving f) (caffeine f) (rest f)
             (inject_Z (stress f)) (VStr (time_label (tod f))))
    ∧ radar_r (view_radar view)
      = [sleep f / 12 * 10; (16 - driving f) / 16 * 10;
         caffeine f / 5 * 10; rest f / 120 * 10;
         (10 - inject_Z (stress f)) / 10 * 10].
Proof.
  intros Hstored Hperm E Hts.
  destruct (submit_outcome _ _ _ _ _ _ _ E) as (pred & conf & ->).
  cbn [driver_records] in Hts.
  set (r := submitted_record now f pred conf) in *.
  set (records := (driver_records w ++ [r])%list) in *.
  assert (Hne : records ≠ []) by (subst records; by destruct (driver_records w)).
  assert (Hplot : ∀ row, row ∈ records → plottable to_datetime row).
  { intros row Hin. apply stored_plottable; [|by apply Hts].
    subst records. apply elem_of_app in Hin as [Hin|Hin].
    - by apply (proj1 (Forall_forall _ _) Hstored).
    - apply list_elem_of_singleton in Hin as ->. apply stored_submitted. }
  pose proof (timeline_run to_datetime sort_values records Hne Hplot Hperm)
    as Htl.
  set (ta := status_trace_of _ "Alert") in Htl.
  set (tf := status_trace_of _ "Fatigued") in Htl.
  pose proof (timeline_final_rows to_datetime sort_values records Hts)
    as Hfinal.
  eexists _, pred, conf.
  split; [|split; [reflexivity|]].
  - unfold dashboard_page. rewrite bind_get_state.
    cbn [driver_records]. fold r. fold records.
    destruct records as [|r0 rs] eqn:Hrec; [done|]. rewrite <- Hrec in *.
    unfold mbind at 1, Py_bind at 1, on_session_records.
    cbn [driver_records files].
    destruct (create_timeline_chart to_datetime sort_values records)
      as [res df'] eqn:Hrun.
    cbn [fst snd] in Htl, Hfinal. subst res df'.
    rewrite bind_get_state. cbn [driver_records].
    subst records. rewrite fmap_app, reverse_app. cbn [fmap list_fmap reverse].
    rewrite reverse_singleton. cbn [app].
    change (stamped to_datetime r !! "Fatigue_Score")
      with (Some (VNum (score_value (sleep f) (driving f) (caffeine f)
                          (rest f) (inject_Z (stress f))
                          (VStr (time_label (tod f)))))).
    change (stamped to_datetime r !! "Prediction") with (Some (VStr pred)).
    change (stamped to_datetime r !! "Confidence") with (Some (VNum conf)).
    change (stamped to_datetime r !! "Name") with (Some (VStr (name f))).
    cbn [from_option mbind result_bind percent value_num].
    rewrite (create_feature_radar_run (stamped to_datetime r) (sleep f)
               (driving f) (caffeine f) (rest f) (inject_Z (stress f)))
      by reflexivity.
    reflexivity.
  - cbn. by repeat split.
Qed.

Lemma first_world_reachable :
  reachable read_timestamp insertion_sort stump (fit_plain_scaler [])
    three_class_encoder ∅ first_world.
Proof.
  apply (reach_step read_timestamp insertion_sort stump (fit_plain_scaler [])
           three_class_encoder ∅ (Submit "2024-05-01 10:30:00" night_form)
           fresh_world).
  apply reach_fresh.
Qed.

Lemma reachable_sessions_hold_records_witness :
  reachable read_timestamp insertion_sort stump (fit_plain_scaler [])
    three_class_encoder ∅ first_world
  ∧ Forall stored_record (driver_records first_world)
  ∧ files first_world = ∅.
Proof.
  split.
  - exact first_world_reachable.
  - exact (reachable_sessions_hold_records read_timestamp insertion_sort
             stump (fit_plain_scaler []) three_class_encoder ∅ first_world
             first_world_reachable).
Defined.

Lemma fresh_world_stored : Forall stored_record (driver_records fresh_world).
Proof. constructor. Qed.

Lemma first_submit_returns :
  add_driver_submit stump (fit_plain_scaler []) three_class_encoder
    "2024-05-01 10:30:00" night_form fresh_world
  = (Ret tt, first_world).
Proof. vm_compute. reflexivity. Qed.

Lemma first_world_timestamps :
  ∀ row, row ∈ driver_records first_world →
    ∃ ts dt, row !! "Timestamp" = Some ts ∧ read_timestamp ts = Ret dt.
Proof.
  intros row Hin.
  assert (E : driver_records first_world
              = [submitted_record "2024-05-01 10:30:00" night_form
                   "Fatigued" 0.8]) by (vm_compute; reflexivity).
  rewrite E in Hin. apply list_elem_of_singleton in Hin as ->.
  do 2 eexists. split; [reflexivity | vm_compute; reflexivity].
Qed.

Lemma dashboard_shows_last_submission_witness :
  Forall stored_record (driver_records fresh_world)
  ∧ (∀ col asc df, insertion_sort col asc df ≡ₚ df)
  ∧ add_driver_submit stump (fit_plain_scaler []) three_class_encoder
      "2024-05-01 10:30:00" night_form fresh_world
    = (Ret tt, first_world)
  ∧ (∀ row, row ∈ driver_records first_world →
       ∃ ts dt, row !! "Timestamp" = Some ts ∧ read_timestamp ts = Ret dt)
  ∧ ∃ view pred conf,
      fst (dashboard_page read_timestamp insertion_sort first_world)
      = Ret (Some view)
      ∧ driver_records first_world
        = (driver_records fresh_world
           ++ [submitted_record "2024-05-01 10:30:00" night_form pred conf])%list
      ∧ view_driver view = VStr (name night_form)
      ∧ view_status view = VStr pred
      ∧ view_confidence_pct view = conf * 100
      ∧ gauge_value (view_gauge view)
        = score_value (sleep night_form) (driving night_form)
            (caffeine night_form) (rest night_form)
            (inject_Z (stress night_form))
            (VStr (time_label (tod night_form)))
      ∧ view_banner view
        = action_banner
            (score_value (sleep night_form) (driving night_form)
               (caffeine night_form) (rest night_form)
               (inject_Z (stress night_form))
               (VStr (time_label (tod night_form))))
      ∧ radar_r (view_radar view)
        = [sleep night_form / 12 * 10; (16 - driving night_form) / 16 * 10;
           caffeine night_form / 5 * 10; rest night_form / 120 * 10;
           (10 - inject_Z (stress night_form)) / 10 * 10].
Proof.
  split; [exact fresh_world_stored|].
  split; [exact insertion_sort_Permutation|].
  split; [exact first_submit_returns|].
  split; [exact first_world_timestamps|].
  exact (dashboard_shows_last_submission read_timestamp insertion_sort
           stump (fit_plain_scaler []) three_class_encoder
           "2024-05-01 10:30:00" night_form fresh_world first_world
           fresh_world_stored insertion_sort_Permutation
           first_submit_returns first_world_timestamps).
Defined.

(** ** How a submission can fail *)

(** X8.  A submission can only fail with [ValueError], and only for one of
    two reasons: the chosen time of day is not among the encoder's classes,
    or the classifier reports no probability for the scaled features.  A
    form never leads to a [KeyError] or a [TypeError], and a failed
    submission leaves the session as it was. *)
Theorem submit_failure_modes model scaler le_time now (f : form)
    (w w' : world) (e : exn) :
  add_driver_submit model scaler le_time now f w = (Exc e, w') →
  e = ValueError ∧ w' = w
  ∧ (time_label (tod f) ∉ classes_ le_time
     ∨ ∃ i, index_of (time_label (tod f)) (classes_ le_time) = Some i
            ∧ predict_proba model
                (scaled_features scaler (sleep f) (driving f) (caffeine f)
                   (rest f) (inject_Z (age f)) (inject_Z (stress f))
                   (inject_Z (Z.of_nat i))) = []).
Proof.
  intros E.
  pose proof (form_input_fields f) as F. pose proof (form_input_age f) as Ha.
  cbv [add_driver_submit with_row mbind Py_bind] in E.
  destruct (index_of (time_label (tod f)) (classes_ le_time)) as [i|] eqn:Hi.
  - assert (Ht : le_transform le_time (VStr (time_label (tod f)))
                 = Ret (inject_Z (Z.of_nat i)))
      by (unfold le_transform; by rewrite Hi).
    destruct (np_max (predict_proba model
                (scaled_features scaler (sleep f) (driving f) (caffeine f)
                   (rest f) (inject_Z (age f)) (inject_Z (stress f))
                   (inject_Z (Z.of_nat i))))) as [c|e'] eqn:Hc.
    + by rewrite (predict_status_run (form_input_data f, w) _ _ _ _ _ _ _ _ _
                    _ _ _ F Ha Ht Hc) in E.
    + rewrite (predict_status_proba_error (form_input_data f, w) _ _ _ _ _ _
                 _ _ _ _ _ _ F Ha Ht Hc) in E.
      injection E as <- <-.
      destruct (predict_proba model _) as [|p ps] eqn:Hp; [|done].
      injection Hc as <-. split; [done|]. split; [done|]. right. eauto.
  - assert (Ht : le_transform le_time (VStr (time_label (tod f)))
                 = Exc ValueError)
      by (unfold le_transform; by rewrite Hi).
    rewrite (predict_status_encode_error (form_input_data f, w) _ _ _ _ _ _
               _ _ _ _ _ F Ha Ht) in E.
    injection E as <- <-. split; [done|]. split; [done|]. left.
    intros (j & Hj & _)%index_of_elem. congruence.
Qed.

(** An encoder fitted on draws that never fell on "Night". *)
Lemma day_only_submit_fails :
  add_driver_submit stump (fit_plain_scaler [])
    (le_fit ["Morning"; "Afternoon"]) "2024-05-01 10:30:00" night_form
    fresh_world
  = (Exc ValueError, fresh_world).
Proof. vm_compute. reflexivity. Qed.

Lemma submit_failure_modes_witness :
  add_driver_submit stump (fit_plain_scaler [])
    (le_fit ["Morning"; "Afternoon"]) "2024-05-01 10:30:00" night_form
    fresh_world
  = (Exc ValueError, fresh_world)
  ∧ ValueError = ValueError ∧ fresh_world = fresh_world
  ∧ (time_label (tod night_form) ∉ classes_ (le_fit ["Morning"; "Afternoon"])
     ∨ ∃ i, index_of (time_label (tod night_form))
              (classes_ (le_fit ["Morning"; "Afternoon"])) = Some i
            ∧ predict_proba stump
                (scaled_features (fit_plain_scaler []) (sleep night_form)
                   (driving night_form) (caffeine night_form)
                   (rest night_form) (inject_Z (age night_form))
                   (inject_Z (stress night_form))
                   (inject_Z (Z.of_nat i))) = []).
Proof.
  split.
  - exact day_only_submit_fails.
  - exact (submit_failure_modes stump (fit_plain_scaler [])
             (le_fit ["Morning"; "Afternoon"]) "2024-05-01 10:30:00"
             night_form fresh_world fresh_world ValueError
             day_only_submit_fails).
Defined.
